(** * A shallow embedding of the Companies House API wrapper

    Source: [companies_house/src/companies_house_api_client.py].

    The module has two classes.  [APIpaths] is a table of URL path
    segments held as class attributes.  [CompaniesHouse] is the client: its
    constructor reads two environment variables, and each of its public
    methods hands a list of path segments and a keyword dictionary to the
    private [__send_request], which builds the URL and calls
    [requests.request].

    Python state is modelled as a [World]: the process environment, the class
    attributes of [APIpaths], the store of [CompaniesHouse] instances and the
    list of calls made to [requests.request].  Methods are computations in a
    state-and-exception monad over [World]. *)

From stdpp Require Import base list strings.
From Stdlib Require Import ZArith.

(** ** Values *)

(** The scalar values that the methods forward as query parameters
    ([str] and [int] in the annotations of the source). *)
Inductive pyval : Type :=
  | PyStr (s : string)
  | PyInt (n : Z).

(** A keyword dictionary [{'key': value, ...}]: insertion ordered, every
    value possibly [None]. *)
Definition kwargs : Type := list (string * option pyval).

(** [not v] for a value of type [Optional[str]]: [None] and [''] are falsy. *)
Definition truthy (v : option string) : bool :=
  match v with
  | None => false
  | Some EmptyString => false
  | Some (String _ _) => true
  end.

(** ** The endpoint path table *)

Module APIpaths.

(** The class attributes of [APIpaths], read at call time. *)
Record t : Type := Build {
  company : string;
  officers : string;
  registers : string;
  charges : string;
  exemptions : string;
  filing_history : string;
  insolvency : string;
  disqualifications_corporate : string;
  disqualifications_natulal : string;
  uk_establishments : string;
  persons_with_significant_control : string;
  persons_with_significant_control_statements : string;
  super_secure : string;
  super_secure_beneficial_owner : string;
  legal_person : string;
  legal_person_beneficial_owner : string;
  individual : string;
  individual_beneficial_owner : string;
  corporate_entity : string;
  corporate_entity_beneficial_owner : string;
  appointments : string;
  advanced_company_search : string;
  search_all : string;
  search_companies : string;
  search_officers : string;
  search_disqualified_officers : string;
  search_companies_alphabetically : string;
  search_dissolved_companies : string
}.

(** The values the class body assigns. *)
Definition declared : t := {|
  company := "company";
  officers := "officers";
  registers := "registers";
  charges := "charges";
  exemptions := "exemptions";
  filing_history := "filing-history";
  insolvency := "insolvency";
  disqualifications_corporate := "disqualified-officers/corporate";
  disqualifications_natulal := "disqualified-officers/natural";
  uk_establishments := "uk-establishments";
  persons_with_significant_control := "persons-with-significant-control";
  persons_with_significant_control_statements :=
    "persons-with-significant-control-statements";
  super_secure := "super-secure";
  super_secure_beneficial_owner := "super-secure-beneficial-owner";
  legal_person := "legal-person";
  legal_person_beneficial_owner := "legal-person-beneficial-owner";
  individual := "individual";
  individual_beneficial_owner := "individual-beneficial-owner";
  corporate_entity := "corporate-entity";
  corporate_entity_beneficial_owner := "corporate-entity-beneficial-owner";
  appointments := "appointments";
  advanced_company_search := "advanced-search/companies";
  search_all := "search";
  search_companies := "search/companies";
  search_officers := "search/officers";
  search_disqualified_officers := "search/disqualified-officers";
  search_companies_alphabetically := "alphabetic-search/companies";
  search_dissolved_companies := "dissolved-search/companies"
|}.

(** The same table with another value for the [super_secure] attribute. *)
Definition with_super_secure (s : string) (P : t) : t :=
  Build (company P) (officers P) (registers P) (charges P) (exemptions P)
    (filing_history P) (insolvency P) (disqualifications_corporate P)
    (disqualifications_natulal P) (uk_establishments P)
    (persons_with_significant_control P)
    (persons_with_significant_control_statements P)
    s
    (super_secure_beneficial_owner P) (legal_person P)
    (legal_person_beneficial_owner P) (individual P)
    (individual_beneficial_owner P) (corporate_entity P)
    (corporate_entity_beneficial_owner P) (appointments P)
    (advanced_company_search P) (search_all P) (search_companies P)
    (search_officers P) (search_disqualified_officers P)
    (search_companies_alphabetically P) (search_dissolved_companies P).

End APIpaths.

(** ** The world *)

(** The instance attributes of a [CompaniesHouse] object.  [host] and
    [api_key] hold what [os.getenv] returned; [headers] is the dictionary
    [{'Authorization': self.api_key}]. *)
Record instance : Type := MkInstance {
  host : option string;
  api_key : option string;
  headers : list (string * option string)
}.

(** An object on which [__init__] has not assigned anything yet. *)
Definition blank : instance :=
  {| host := None; api_key := None; headers := [] |}.

(** An HTTP response as the transport returns it; the client never looks
    inside. *)
Record Response : Type := {
  status_code : Z;
  response_headers : list (string * string);
  content : string
}.

(** One call [requests.request(method, url, headers=..., params=...)]. *)
Record Sent : Type := {
  sent_method : string;
  sent_url : string;
  sent_headers : list (string * option string);
  sent_params : kwargs
}.

Inductive exn : Type :=
  | ValueError (msg : string)
  | AttributeError (msg : string)
  | RequestException (detail : string).

Record World : Type := {
  environ : string -> option string;
  paths : APIpaths.t;
  objects : list instance;
  wire : list Sent
}.

(** A reference to a [CompaniesHouse] object: its index in [objects]. *)
Definition ref : Type := nat.

(** ** The monad of Python computations *)

Inductive result (A : Type) : Type :=
  | Ok (a : A)
  | Raise (e : exn).
Arguments Ok {A} a.
Arguments Raise {A} e.

Definition M (A : Type) : Type := World -> result A * World.

#[export] Instance M_ret : MRet M := fun A a w => (Ok a, w).

#[export] Instance M_bind : MBind M := fun A B f m w =>
  match m w with
  | (Ok a, w') => f a w'
  | (Raise e, w') => (Raise e, w')
  end.

Definition raise {A : Type} (e : exn) : M A := fun w => (Raise e, w).

Definition os_getenv (key : string) : M (option string) :=
  fun w => (Ok (environ w key), w).

Definition read_APIpaths : M APIpaths.t :=
  fun w => (Ok (paths w), w).

(** Allocation of a fresh object, before [__init__] runs on it. *)
Definition allocate : M ref :=
  fun w => (Ok (length (objects w)),
            {| environ := environ w; paths := paths w;
               objects := objects w ++ [blank]; wire := wire w |}).

Definition deref (self : ref) : M instance :=
  fun w => match objects w !! self with
           | Some o => (Ok o, w)
           | None => (Raise (AttributeError "no such object"), w)
           end.

Definition assign (self : ref) (f : instance -> instance) : M unit :=
  fun w => match objects w !! self with
           | Some o => (Ok tt,
                        {| environ := environ w; paths := paths w;
                           objects := <[self := f o]> (objects w);
                           wire := wire w |})
           | None => (Raise (AttributeError "no such object"), w)
           end.

Definition set_host (self : ref) (v : option string) : M unit :=
  assign self (fun o => {| host := v; api_key := api_key o; headers := headers o |}).

Definition set_api_key (self : ref) (v : option string) : M unit :=
  assign self (fun o => {| host := host o; api_key := v; headers := headers o |}).

Definition set_headers (self : ref) (v : list (string * option string)) : M unit :=
  assign self (fun o => {| host := host o; api_key := api_key o; headers := v |}).

(** The world after one more call of [requests.request]. *)
Definition sending (s : Sent) (w : World) : World :=
  {| environ := environ w; paths := paths w; objects := objects w;
     wire := wire w ++ [s] |}.

(** What [requests.request] hands back from the transport's answer: the
    response as it is, or the transport's failure as an exception. *)
Definition answer (a : string + Response) : result Response :=
  match a with
  | inl detail => Raise (RequestException detail)
  | inr response => Ok response
  end.

(** ** The client *)

Module CompaniesHouse.
Section Client.

(** The remote side of [requests.request]: given the calls made so far and
    the present one, it answers with a response or fails with a transport
    error, of which only a description is kept. *)
Variable remote : list Sent -> Sent -> string + Response.

Definition requests_request (method url : string)
    (hdrs : list (string * option string)) (params : kwargs) : M Response :=
  fun w =>
    let s := {| sent_method := method; sent_url := url;
                sent_headers := hdrs; sent_params := params |} in
    (answer (remote (wire w) s), sending s w).

(** [__init__]: the two assignments, the two guards, the headers. *)
Definition __init__ (self : ref) : M unit :=
  h ← os_getenv "COMPANIES_HOUSE_HOST";
  set_host self h;;
  k ← os_getenv "COMPANIES_HOUSE_APIKEY";
  set_api_key self k;;
  o ← deref self;
  if negb (truthy (host o)) then raise (ValueError "KVK_HOST is not set") else
  if negb (truthy (api_key o)) then raise (ValueError "KVK_APIKEY is not set") else
  set_headers self [("Authorization", api_key o)].

(** The expression [CompaniesHouse()]: the caller gets the reference only
    when [__init__] returns. *)
Definition new : M ref :=
  self ← allocate;
  __init__ self;;
  mret self.

(** [['/' + r for r in res if r is not None]] *)
Definition slashed (res : list (option string)) : list string :=
  flat_map (fun r => match r with
                     | Some r => ["/" +:+ r]
                     | None => []
                     end) res.

Definition __send_request (self : ref) (request_type : string)
    (res : list (option string)) (params : kwargs) : M Response :=
  o ← deref self;
  match host o with
  | None => raise (ValueError "HOST is not set")
  | Some h =>
      let url := h +:+ String.concat "" (slashed res) in
      requests_request request_type url (headers o) params
  end.

(** A [str | None] and an [int | None] argument as dictionary values. *)
Definition str (v : option string) : option pyval := PyStr <$> v.
Definition int (v : option Z) : option pyval := PyInt <$> v.

Definition get_company_profile (self : ref) (company_number : string)
    : M Response :=
  P ← read_APIpaths;
  __send_request self "GET" [Some (APIpaths.company P); Some company_number] [].

Definition advanced_company_search (self : ref)
    (company_name_includes company_name_excludes company_status
     company_subtype company_type dissolved_from dissolved_to
     incorporated_from incorporated_to location sic_codes : option string)
    (size start_index : option Z) : M Response :=
  let params := [
    ("company_name_includes", str company_name_includes);
    ("company_name_excludes", str company_name_excludes);
    ("company_status", str company_status);
    ("company_subtype", str company_subtype);
    ("company_type", str company_type);
    ("dissolved_from", str dissolved_from);
    ("dissolved_to", str dissolved_to);
    ("incorporated_from", str incorporated_from);
    ("incorporated_to", str incorporated_to);
    ("location", str location);
    ("sic_codes", str sic_codes);
    ("size", int size);
    ("start_index", int start_index)
  ] in
  P ← read_APIpaths;
  __send_request self "GET" [Some (APIpaths.advanced_company_search P)] params.

Definition search_all (self : ref) (q : string)
    (items_per_page start_index : option Z) : M Response :=
  let params := [
    ("q", Some (PyStr q));
    ("items_per_page", int items_per_page);
    ("start_index", int start_index)
  ] in
  P ← read_APIpaths;
  __send_request self "GET" [Some (APIpaths.search_all P)] params.

Definition search_companies (self : ref) (q : string)
    (items_per_page start_index : option Z) (restrictions : option string)
    : M Response :=
  let params := [
    ("q", Some (PyStr q));
    ("items_per_page", int items_per_page);
    ("start_index", int start_index);
    ("restrictions", str restrictions)
  ] in
  P ← read_APIpaths;
  __send_request self "GET" [Some (APIpaths.search_companies P)] params.

Definition search_officers (self : ref) (q : string)
    (items_per_page start_index : option Z) : M Response :=
  let params := [
    ("q", Some (PyStr q));
    ("items_per_page", int items_per_page);
    ("start_index", int start_index)
  ] in
  P ← read_APIpaths;
  __send_request self "GET" [Some (APIpaths.search_officers P)] params.

Definition search_disqualified_officers (self : ref) (q : string)
    (items_per_page start_index : option Z) : M Response :=
  let params := [
    ("q", Some (PyStr q));
    ("items_per_page", int items_per_page);
    ("start_index", int start_index)
  ] in
  P ← read_APIpaths;
  __send_request self "GET"
    [Some (APIpaths.search_disqualified_officers P)] params.

Definition search_companies_alphabetically (self : ref) (q : string)
    (search_above search_below size : option string) : M Response :=
  let params := [
    ("q", Some (PyStr q));
    ("search_above", str search_above);
    ("search_below", str search_below);
    ("size", str size)
  ] in
  P ← read_APIpaths;
  __send_request self "GET"
    [Some (APIpaths.search_companies_alphabetically P)] params.

Definition search_dissolved_companies (self : ref) (q search_type : string)
    (search_above search_below size : option string)
    (start_index : option Z) : M Response :=
  let params := [
    ("q", Some (PyStr q));
    ("search_type", Some (PyStr search_type));
    ("search_above", str search_above);
    ("search_below", str search_below);
    ("size", str size);
    ("start_index", int start_index)
  ] in
  P ← read_APIpaths;
  __send_request self "GET"
    [Some (APIpaths.search_dissolved_companies P)] params.

Definition get_officers (self : ref) (company_number : string)
    (items_per_page : option Z) (register_type register_view : option string)
    (start_index : option Z) (order_by : option string) : M Response :=
  let params := [
    ("items_per_page", int items_per_page);
    ("register_type", str register_type);
    ("register_view", str register_view);
    ("start_index", int start_index);
    ("order_by", str order_by)
  ] in
  P ← read_APIpaths;
  __send_request self "GET"
    [Some (APIpaths.company P); Some company_number;
     Some (APIpaths.officers P)] params.

Definition get_company_officer_appointment (self : ref)
    (company_number officer_id appointment_id : string) : M Response :=
  P ← read_APIpaths;
  __send_request self "GET"
    [Some (APIpaths.company P); Some company_number;
     Some (APIpaths.officers P); Some officer_id;
     Some (APIpaths.appointments P); Some appointment_id] [].

Definition get_company_registers (self : ref) (company_number : string)
    : M Response :=
  P ← read_APIpaths;
  __send_request self "GET"
    [Some (APIpaths.company P); Some company_number;
     Some (APIpaths.registers P)] [].

Definition get_comapany_charges (self : ref) (company_number : string)
    : M Response :=
  P ← read_APIpaths;
  __send_request self "GET"
    [Some (APIpaths.company P); Some company_number;
     Some (APIpaths.charges P)] [].

Definition get_company_charge (self : ref)
    (company_number charge_id : string) : M Response :=
  P ← read_APIpaths;
  __send_request self "GET"
    [Some (APIpaths.company P); Some company_number;
     Some company_number; Some (APIpaths.charges P); Some charge_id] [].

Definition get_company_filing_history (self : ref) (company_number : string)
    (category : option string) (items_per_page start_index : option Z)
    : M Response :=
  let params := [
    ("category", str category);
    ("items_per_page", int items_per_page);
    ("start_index", int start_index)
  ] in
  P ← read_APIpaths;
  __send_request self "GET"
    [Some (APIpaths.company P); Some company_number;
     Some (APIpaths.filing_history P)] params.

Definition get_company_filing_history_item (self : ref)
    (company_number transaction_id : string) : M Response :=
  P ← read_APIpaths;
  __send_request self "GET"
    [Some (APIpaths.company P); Some company_number;
     Some (APIpaths.filing_history P); Some transaction_id] [].

Definition get_company_insolvency_information (self : ref)
    (company_number : string) : M Response :=
  P ← read_APIpaths;
  __send_request self "GET"
    [Some (APIpaths.company P); Some company_number;
     Some (APIpaths.insolvency P)] [].

Definition get_company_exemptions_information (self : ref)
    (company_number : string) : M Response :=
  P ← read_APIpaths;
  __send_request self "GET"
    [Some (APIpaths.company P); Some company_number;
     Some (APIpaths.exemptions P)] [].

Definition get_cooporate_officer_disqualifications (self : ref)
    (officer_id : string) : M Response :=
  P ← read_APIpaths;
  __send_request self "GET"
    [Some (APIpaths.officers P);
     Some (APIpaths.disqualifications_corporate P); Some officer_id] [].

Definition get_natural_officer_disqualifications (self : ref)
    (officer_id : string) : M Response :=
  P ← read_APIpaths;
  __send_request self "GET"
    [Some (APIpaths.officers P);
     Some (APIpaths.disqualifications_natulal P); Some officer_id] [].

Definition get_officer_appointments (self : ref) (officer_id : string)
    (items_per_page start_index : option Z) : M Response :=
  let params := [
    ("items_per_page", int items_per_page);
    ("start_index", int start_index)
  ] in
  P ← read_APIpaths;
  __send_request self "GET"
    [Some (APIpaths.officers P); Some officer_id;
     Some (APIpaths.appointments P)] params.

Definition get_company_uk_enstablishment (self : ref)
    (company_number : string) : M Response :=
  P ← read_APIpaths;
  __send_request self "GET"
    [Some (APIpaths.company P); Some company_number;
     Some (APIpaths.uk_establishments P)] [].

Definition get_persons_with_significant_control (self : ref)
    (company_number : string)
    (items_per_page start_index register_view : option string)
    : M Response :=
  let params := [
    ("items_per_page", str items_per_page);
    ("start_index", str start_index);
    ("register_view", str register_view)
  ] in
  P ← read_APIpaths;
  __send_request self "GET"
    [Some (APIpaths.company P); Some company_number;
     Some (APIpaths.persons_with_significant_control P)] params.

Definition get_persons_with_significant_control_statements (self : ref)
    (company_number : string)
    (items_per_page start_index register_view : option string)
    : M Response :=
  let params := [
    ("items_per_page", str items_per_page);
    ("start_index", str start_index);
    ("register_view", str register_view)
  ] in
  P ← read_APIpaths;
  __send_request self "GET"
    [Some (APIpaths.company P); Some company_number;
     Some (APIpaths.persons_with_significant_control_statements P)] params.

Definition get_the_super_secure_person_with_significant_control (self : ref)
    (company_number super_secure_id : string) : M Response :=
  P ← read_APIpaths;
  __send_request self "GET"
    [Some (APIpaths.company P); Some company_number;
     Some (APIpaths.persons_with_significant_control P);
     Some super_secure_id] [].

Definition get_the_super_secure_beneficial_owner (self : ref)
    (company_number super_secure_id : string) : M Response :=
  P ← read_APIpaths;
  __send_request self "GET"
    [Some (APIpaths.company P); Some company_number;
     Some (APIpaths.super_secure_beneficial_owner P);
     Some super_secure_id] [].

Definition get_person_with_significant_control_statement (self : ref)
    (company_number statement_id : string) : M Response :=
  P ← read_APIpaths;
  __send_request self "GET"
    [Some (APIpaths.company P); Some company_number;
     Some (APIpaths.persons_with_significant_control_statements P);
     Some statement_id] [].

Definition get_legal_person_with_significant_control (self : ref)
    (company_number psc_id : string) : M Response :=
  P ← read_APIpaths;
  __send_request self "GET"
    [Some (APIpaths.company P); Some company_number;
     Some (APIpaths.persons_with_significant_control P);
     Some (APIpaths.legal_person P); Some psc_id] [].

Definition get_legal_person_beneficial_owner (self : ref)
    (company_number psc_id : string) : M Response :=
  P ← read_APIpaths;
  __send_request self "GET"
    [Some (APIpaths.company P); Some company_number;
     Some (APIpaths.persons_with_significant_control P);
     Some (APIpaths.legal_person_beneficial_owner P); Some psc_id] [].

Definition get_individual_person_with_significant_control (self : ref)
    (company_number psc_id : string) : M Response :=
  P ← read_APIpaths;
  __send_request self "GET"
    [Some (APIpaths.company P); Some company_number;
     Some (APIpaths.persons_with_significant_control P);
     Some (APIpaths.individual P); Some psc_id] [].

Definition get_individual_beneficial_owner (self : ref)
    (company_number psc_id : string) : M Response :=
  P ← read_APIpaths;
  __send_request self "GET"
    [Some (APIpaths.company P); Some company_number;
     Some (APIpaths.persons_with_significant_control P);
     Some (APIpaths.individual_beneficial_owner P); Some psc_id] [].

Definition get_corporate_entity_with_significant_control (self : ref)
    (company_number psc_id : string) : M Response :=
  P ← read_APIpaths;
  __send_request self "GET"
    [Some (APIpaths.company P); Some company_number;
     Some (APIpaths.persons_with_significant_control P);
     Some (APIpaths.corporate_entity P); Some psc_id] [].

Definition get_corporate_entity_beneficial_owner (self : ref)
    (company_number psc_id : string) : M Response :=
  P ← read_APIpaths;
  __send_request self "GET"
    [Some (APIpaths.company P); Some company_number;
     Some (APIpaths.persons_with_significant_control P);
     Some (APIpaths.corporate_entity_beneficial_owner P); Some psc_id] [].

End Client.
End CompaniesHouse.

(** ** Calls of the public methods *)

(** One constructor per public method of [CompaniesHouse], carrying the
    arguments of the call. *)
Inductive call : Type :=
  | call_get_company_profile (company_number : string)
  | call_advanced_company_search
      (company_name_includes company_name_excludes company_status
       company_subtype company_type dissolved_from dissolved_to
       incorporated_from incorporated_to location sic_codes : option string)
      (size start_index : option Z)
  | call_search_all (q : string) (items_per_page start_index : option Z)
  | call_search_companies (q : string) (items_per_page start_index : option Z)
      (restrictions : option string)
  | call_search_officers (q : string) (items_per_page start_index : option Z)
  | call_search_disqualified_officers (q : string)
      (items_per_page start_index : option Z)
  | call_search_companies_alphabetically (q : string)
      (search_above search_below size : option string)
  | call_search_dissolved_companies (q search_type : string)
      (search_above search_below size : option string)
      (start_index : option Z)
  | call_get_officers (company_number : string) (items_per_page : option Z)
      (register_type register_view : option string) (start_index : option Z)
      (order_by : option string)
  | call_get_company_officer_appointment
      (company_number officer_id appointment_id : string)
  | call_get_company_registers (company_number : string)
  | call_get_comapany_charges (company_number : string)
  | call_get_company_charge (company_number charge_id : string)
  | call_get_company_filing_history (company_number : string)
      (category : option string) (items_per_page start_index : option Z)
  | call_get_company_filing_history_item (company_number transaction_id : string)
  | call_get_company_insolvency_information (company_number : string)
  | call_get_company_exemptions_information (company_number : string)
  | call_get_cooporate_officer_disqualifications (officer_id : string)
  | call_get_natural_officer_disqualifications (officer_id : string)
  | call_get_officer_appointments (officer_id : string)
      (items_per_page start_index : option Z)
  | call_get_company_uk_enstablishment (company_number : string)
  | call_get_persons_with_significant_control (company_number : string)
      (items_per_page start_index register_view : option string)
  | call_get_persons_with_significant_control_statements
      (company_number : string)
      (items_per_page start_index register_view : option string)
  | call_get_the_super_secure_person_with_significant_control
      (company_number super_secure_id : string)
  | call_get_the_super_secure_beneficial_owner
      (company_number super_secure_id : string)
  | call_get_person_with_significant_control_statement
      (company_number statement_id : string)
  | call_get_legal_person_with_significant_control
      (company_number psc_id : string)
  | call_get_legal_person_beneficial_owner (company_number psc_id : string)
  | call_get_individual_person_with_significant_control
      (company_number psc_id : string)
  | call_get_individual_beneficial_owner (company_number psc_id : string)
  | call_get_corporate_entity_with_significant_control
      (company_number psc_id : string)
  | call_get_corporate_entity_beneficial_owner (company_number psc_id : string).

Section Calls.

Variable remote : list Sent -> Sent -> string + Response.

(** [self.<method>(<arguments>)] *)
Definition invoke (self : ref) (c : call) : M Response :=
  match c with
  | call_get_company_profile n =>
      CompaniesHouse.get_company_profile remote self n
  | call_advanced_company_search a b c d e f g h i j k l m =>
      CompaniesHouse.advanced_company_search remote self
        a b c d e f g h i j k l m
  | call_search_all q i s => CompaniesHouse.search_all remote self q i s
  | call_search_companies q i s r =>
      CompaniesHouse.search_companies remote self q i s r
  | call_search_officers q i s =>
      CompaniesHouse.search_officers remote self q i s
  | call_search_disqualified_officers q i s =>
      CompaniesHouse.search_disqualified_officers remote self q i s
  | call_search_companies_alphabetically q a b s =>
      CompaniesHouse.search_companies_alphabetically remote self q a b s
  | call_search_dissolved_companies q t a b s i =>
      CompaniesHouse.search_dissolved_companies remote self q t a b s i
  | call_get_officers n i t v s o =>
      CompaniesHouse.get_officers remote self n i t v s o
  | call_get_company_officer_appointment n o a =>
      CompaniesHouse.get_company_officer_appointment remote self n o a
  | call_get_company_registers n =>
      CompaniesHouse.get_company_registers remote self n
  | call_get_comapany_charges n =>
      CompaniesHouse.get_comapany_charges remote self n
  | call_get_company_charge n i =>
      CompaniesHouse.get_company_charge remote self n i
  | call_get_company_filing_history n c i s =>
      CompaniesHouse.get_company_filing_history remote self n c i s
  | call_get_company_filing_history_item n t =>
      CompaniesHouse.get_company_filing_history_item remote self n t
  | call_get_company_insolvency_information n =>
      CompaniesHouse.get_company_insolvency_information remote self n
  | call_get_company_exemptions_information n =>
      CompaniesHouse.get_company_exemptions_information remote self n
  | call_get_cooporate_officer_disqualifications o =>
      CompaniesHouse.get_cooporate_officer_disqualifications remote self o
  | call_get_natural_officer_disqualifications o =>
      CompaniesHouse.get_natural_officer_disqualifications remote self o
  | call_get_officer_appointments o i s =>
      CompaniesHouse.get_officer_appointments remote self o i s
  | call_get_company_uk_enstablishment n =>
      CompaniesHouse.get_company_uk_enstablishment remote self n
  | call_get_persons_with_significant_control n i s v =>
      CompaniesHouse.get_persons_with_significant_control remote self n i s v
  | call_get_persons_with_significant_control_statements n i s v =>
      CompaniesHouse.get_persons_with_significant_control_statements
        remote self n i s v
  | call_get_the_super_secure_person_with_significant_control n i =>
      CompaniesHouse.get_the_super_secure_person_with_significant_control
        remote self n i
  | call_get_the_super_secure_beneficial_owner n i =>
      CompaniesHouse.get_the_super_secure_beneficial_owner remote self n i
  | call_get_person_with_significant_control_statement n i =>
      CompaniesHouse.get_person_with_significant_control_statement
        remote self n i
  | call_get_legal_person_with_significant_control n i =>
      CompaniesHouse.get_legal_person_with_significant_control remote self n i
  | call_get_legal_person_beneficial_owner n i =>
      CompaniesHouse.get_legal_person_beneficial_owner remote self n i
  | call_get_individual_person_with_significant_control n i =>
      CompaniesHouse.get_individual_person_with_significant_control
        remote self n i
  | call_get_individual_beneficial_owner n i =>
      CompaniesHouse.get_individual_beneficial_owner remote self n i
  | call_get_corporate_entity_with_significant_control n i =>
      CompaniesHouse.get_corporate_entity_with_significant_control
        remote self n i
  | call_get_corporate_entity_beneficial_owner n i =>
      CompaniesHouse.get_corporate_entity_beneficial_owner remote self n i
  end.

(** A caller that makes the calls one after the other, on whichever
    objects, and goes on whatever each of them returns or raises. *)
Definition run_calls (cs : list (ref * call)) (w : World) : World :=
  fold_left (fun w rc => snd (invoke rc.1 rc.2 w)) cs w.

(** The calls of [requests.request] that a computation adds to the wire. *)
Definition issued {A : Type} (m : M A) (w : World) : list Sent :=
  drop (length (wire w)) (wire (snd (m w))).

End Calls.

(** ** The query string *)

Module Requests.

(** Modelled from the spec: the encoding of the [params] dictionary into the
    query string of the request is done inside the [requests] library, which
    is not part of the repository.  The spec has "absent/null values are
    omitted from the outgoing query string rather than sent as empty" and
    "the non-null query parameters attached": the query string holds one
    [key=value] field for each entry whose value is not [None], in the order
    of the dictionary. *)
Definition query_string (params : kwargs) : list (string * pyval) :=
  omap (fun kv => match kv.2 with
                  | Some v => Some (kv.1, v)
                  | None => None
                  end) params.

End Requests.

(** ** The URL as the specification words it *)

(** The host followed by ["/" + segment] for each segment that is present,
    in the given order: a segment that is [None] adds nothing. *)
Fixpoint spec_url (so_far : string) (res : list (option string)) : string :=
  match res with
  | [] => so_far
  | None :: rest => spec_url so_far rest
  | Some segment :: rest => spec_url (so_far +:+ "/" +:+ segment) rest
  end.

(** ** Worlds to run the client in *)

(** The object [__init__] has built when its attributes hold [h], [k] and
    [hdrs]. *)
Definition filled (h k : option string) (hdrs : list (string * option string))
    : instance :=
  {| host := h; api_key := k; headers := hdrs |}.

(** The world with one more object at the end of the store. *)
Definition with_object (o : instance) (w : World) : World :=
  {| environ := environ w; paths := paths w;
     objects := objects w ++ [o]; wire := wire w |}.

(** The world after an assignment to the class attributes of [APIpaths]. *)
Definition with_paths (P : APIpaths.t) (w : World) : World :=
  {| environ := environ w; paths := P;
     objects := objects w; wire := wire w |}.

(** A process with nothing in its environment and nothing done yet. *)
Definition empty_world : World :=
  {| environ := fun _ => None; paths := APIpaths.declared;
     objects := []; wire := [] |}.

Definition example_host : string :=
  "https://api.company-information.service.gov.uk".

Definition example_key : string := "0123456789abcdef".

(** A process whose environment sets the two variables. *)
Definition example_world : World :=
  {| environ := fun key =>
       if String.eqb key "COMPANIES_HOUSE_HOST" then Some example_host
       else if String.eqb key "COMPANIES_HOUSE_APIKEY" then Some example_key
       else None;
     paths := APIpaths.declared;
     objects := [];
     wire := [] |}.

(** The same process once [ch = CompaniesHouse()] has run: [ch] is the
    reference [0]. *)
Definition example_client_world : World :=
  snd (CompaniesHouse.new example_world).

(** A remote side that knows no resource: it answers 404 to everything. *)
Definition example_remote : list Sent -> Sent -> string + Response :=
  fun _ _ => inr {| status_code := 404%Z; response_headers := [];
                    content := "{}" |}.

(** The calls of the first tests of [test_companies_house_api.py], made on
    the client [0]. *)
Definition example_calls : list (ref * call) :=
  [(0, call_get_company_profile "11799251");
   (0, call_advanced_company_search (Some "Swishfund") None None None None
         None None None None None None None None);
   (0, call_get_officers "11799251" None None None None None)].

(** ** More worlds *)

(** The world after an assignment to [os.environ]. *)
Definition with_environ (e : string -> option string) (w : World) : World :=
  {| environ := e; paths := paths w; objects := objects w; wire := wire w |}.

(** What [CompaniesHouse()] leaves behind when nothing is configured: the
    object [0], which no caller holds, has no host. *)
Definition unconfigured_world : World := snd (CompaniesHouse.new empty_world).

(** A world with two clients of the same host and different keys. *)
Definition two_clients_world : World :=
  {| environ := fun _ => None;
     paths := APIpaths.declared;
     objects := [filled (Some example_host) (Some "first-key")
                   [("Authorization", Some "first-key")];
                 filled (Some example_host) (Some "second-key")
                   [("Authorization", Some "second-key")]];
     wire := [] |}.

(** A remote side that cannot be reached. *)
Definition unreachable_remote : list Sent -> Sent -> string + Response :=
  fun _ _ => inl "connection refused".

(** A remote side that answers 200 to everything. *)
Definition obliging_remote : list Sent -> Sent -> string + Response :=
  fun _ _ => inr {| status_code := 200%Z; response_headers := [];
                    content := "{}" |}.

(** ** The test module

    Source: [test/test_companies_house_api.py]. *)

Module Tests.

(** How a test function ends: its [assert] holds, its [assert] fails, or
    the call under test raises. *)
Inductive verdict : Type :=
  | Passed
  | Failed
  | Errored (e : exn).

Section Suite.

Variable remote : list Sent -> Sent -> string + Response.

(** The module-level [ch = CompaniesHouse()], bound at import. *)
Variable ch : ref.

Definition COC_NUMBER : string := "11799251".

(** [response = <call>; assert response.status_code == 200] *)
Definition assert_status_code_200 (m : M Response)
    : World -> verdict * World :=
  fun w =>
    match m w with
    | (Ok response, w') =>
        (if Z.eqb (status_code response) 200 then Passed else Failed, w')
    | (Raise e, w') => (Errored e, w')
    end.

Definition test_get_companies_profile : World -> verdict * World :=
  assert_status_code_200
    (CompaniesHouse.get_company_profile remote ch COC_NUMBER).

Definition test_advanced_company_search : World -> verdict * World :=
  assert_status_code_200
    (CompaniesHouse.advanced_company_search remote ch (Some "Swishfund")
       None None None None None None None None None None None None).

Definition test_get_officers : World -> verdict * World :=
  assert_status_code_200
    (CompaniesHouse.get_officers remote ch COC_NUMBER
       None None None None None).

Definition test_get_company_filing_history : World -> verdict * World :=
  assert_status_code_200
    (CompaniesHouse.get_company_filing_history remote ch COC_NUMBER
       None None None).

Definition test_get_company_insolvency_information
    : World -> verdict * World :=
  assert_status_code_200
    (CompaniesHouse.get_company_insolvency_information remote ch COC_NUMBER).

Definition test_get_company_profile : World -> verdict * World :=
  assert_status_code_200
    (CompaniesHouse.get_company_profile remote ch COC_NUMBER).

Definition test_get_company_uk_enstablishment : World -> verdict * World :=
  assert_status_code_200
    (CompaniesHouse.get_company_uk_enstablishment remote ch COC_NUMBER).

Definition test_get_persons_with_significant_control
    : World -> verdict * World :=
  assert_status_code_200
    (CompaniesHouse.get_persons_with_significant_control remote ch COC_NUMBER
       None None None).

Definition test_search_all : World -> verdict * World :=
  assert_status_code_200
    (CompaniesHouse.search_all remote ch "Swishfund" None None).

Definition test_search_companies : World -> verdict * World :=
  assert_status_code_200
    (CompaniesHouse.search_companies remote ch "Swishfund" None None None).

Definition test_search_disqualified_officers : World -> verdict * World :=
  assert_status_code_200
    (CompaniesHouse.search_disqualified_officers remote ch "Swishfund"
       None None).

Definition test_search_officers : World -> verdict * World :=
  assert_status_code_200
    (CompaniesHouse.search_officers remote ch "Swishfund" None None).

(** The test functions of the module, in the order of the file. *)
Definition collected : list (World -> verdict * World) :=
  [test_get_companies_profile; test_advanced_company_search;
   test_get_officers; test_get_company_filing_history;
   test_get_company_insolvency_information; test_get_company_profile;
   test_get_company_uk_enstablishment;
   test_get_persons_with_significant_control; test_search_all;
   test_search_companies; test_search_disqualified_officers;
   test_search_officers].

End Suite.

End Tests.

(** * Properties *)

(** ** Strings *)

Lemma string_app_cons (x : Ascii.ascii) (a b : string) :
  String x a +:+ b = String x (a +:+ b).
Proof. reflexivity. Qed.

Lemma string_app_assoc (a b c : string) : (a +:+ b) +:+ c = a +:+ (b +:+ c).
Proof.
  induction a as [|x a IH]; [reflexivity |].
  rewrite !string_app_cons. now rewrite IH.
Qed.

Lemma string_app_empty_r (a : string) : a +:+ "" = a.
Proof.
  induction a as [|x a IH]; [reflexivity |].
  rewrite !string_app_cons. now rewrite IH.
Qed.

Lemma string_length_app (a b : string) :
  String.length (a +:+ b) = (String.length a + String.length b).
Proof.
  induction a as [|x a IH]; [reflexivity |].
  rewrite string_app_cons. cbn [String.length]. now rewrite IH.
Qed.

Lemma join_empty_cons (x : string) (l : list string) :
  String.concat "" (x :: l) = x +:+ String.concat "" l.
Proof.
  destruct l as [|y l]; simpl.
  - symmetry. apply string_app_empty_r.
  - reflexivity.
Qed.

(** The comprehension joined with [''] is the left-to-right walk of
    [spec_url]. *)
Lemma spec_url_join (h : string) (res : list (option string)) :
  spec_url h res = h +:+ String.concat "" (CompaniesHouse.slashed res).
Proof.
  revert h. induction res as [|[r|] res IH]; intros h.
  - simpl. symmetry. apply string_app_empty_r.
  - change (CompaniesHouse.slashed (Some r :: res))
      with (("/" +:+ r) :: CompaniesHouse.slashed res).
    rewrite join_empty_cons. cbn [spec_url]. rewrite IH.
    now rewrite !string_app_assoc.
  - apply IH.
Qed.

(** The comprehension sees the segments that are present, and only them. *)
Lemma slashed_present (res : list (option string)) :
  CompaniesHouse.slashed (Some <$> omap id res) = CompaniesHouse.slashed res.
Proof.
  induction res as [|[r|] res IH]; [reflexivity | | exact IH].
  change (CompaniesHouse.slashed (Some r :: res))
    with (("/" +:+ r) :: CompaniesHouse.slashed res).
  rewrite <- IH. reflexivity.
Qed.

(** ** Running the monad *)

Create HintDb public_methods.

#[local] Hint Unfold
  invoke
  CompaniesHouse.get_company_profile
  CompaniesHouse.advanced_company_search
  CompaniesHouse.search_all
  CompaniesHouse.search_companies
  CompaniesHouse.search_officers
  CompaniesHouse.search_disqualified_officers
  CompaniesHouse.search_companies_alphabetically
  CompaniesHouse.search_dissolved_companies
  CompaniesHouse.get_officers
  CompaniesHouse.get_company_officer_appointment
  CompaniesHouse.get_company_registers
  CompaniesHouse.get_comapany_charges
  CompaniesHouse.get_company_charge
  CompaniesHouse.get_company_filing_history
  CompaniesHouse.get_company_filing_history_item
  CompaniesHouse.get_company_insolvency_information
  CompaniesHouse.get_company_exemptions_information
  CompaniesHouse.get_cooporate_officer_disqualifications
  CompaniesHouse.get_natural_officer_disqualifications
  CompaniesHouse.get_officer_appointments
  CompaniesHouse.get_company_uk_enstablishment
  CompaniesHouse.get_persons_with_significant_control
  CompaniesHouse.get_persons_with_significant_control_statements
  CompaniesHouse.get_the_super_secure_person_with_significant_control
  CompaniesHouse.get_the_super_secure_beneficial_owner
  CompaniesHouse.get_person_with_significant_control_statement
  CompaniesHouse.get_legal_person_with_significant_control
  CompaniesHouse.get_legal_person_beneficial_owner
  CompaniesHouse.get_individual_person_with_significant_control
  CompaniesHouse.get_individual_beneficial_owner
  CompaniesHouse.get_corporate_entity_with_significant_control
  CompaniesHouse.get_corporate_entity_beneficial_owner
  : public_methods.

(** Opens a public method down to its call of [__send_request]. *)
Ltac unfold_method :=
  autounfold with public_methods;
  unfold mbind, M_bind, read_APIpaths;
  cbv beta iota zeta.

Section Running.

Variable remote : list Sent -> Sent -> string + Response.

Lemma send_request_run (w : World) (self : ref) (o : instance) (h : string)
    (request_type : string) (res : list (option string)) (params : kwargs) :
  objects w !! self = Some o ->
  host o = Some h ->
  let s := {| sent_method := request_type;
              sent_url := h +:+ String.concat "" (CompaniesHouse.slashed res);
              sent_headers := headers o;
              sent_params := params |} in
  CompaniesHouse.__send_request remote self request_type res params w
  = (answer (remote (wire w) s), sending s w).
Proof.
  intros Ho Hh s.
  unfold CompaniesHouse.__send_request, mbind, M_bind, deref.
  rewrite Ho, Hh. reflexivity.
Qed.

Lemma send_request_no_host (w : World) (self : ref) (o : instance)
    (request_type : string) (res : list (option string)) (params : kwargs) :
  objects w !! self = Some o ->
  host o = None ->
  CompaniesHouse.__send_request remote self request_type res params w
  = (Raise (ValueError "HOST is not set"), w).
Proof.
  intros Ho Hh.
  unfold CompaniesHouse.__send_request, mbind, M_bind, deref.
  rewrite Ho, Hh. reflexivity.
Qed.

Lemma send_request_no_object (w : World) (self : ref)
    (request_type : string) (res : list (option string)) (params : kwargs) :
  objects w !! self = None ->
  CompaniesHouse.__send_request remote self request_type res params w
  = (Raise (AttributeError "no such object"), w).
Proof.
  intros Ho.
  unfold CompaniesHouse.__send_request, mbind, M_bind, deref.
  rewrite Ho. reflexivity.
Qed.

(** Every public method is one call of [__send_request] with ["GET"]. *)
Lemma invoke_dispatch (self : ref) (c : call) (w : World) :
  exists res params,
    invoke remote self c w
    = CompaniesHouse.__send_request remote self "GET" res params w.
Proof. destruct c; eexists _, _; reflexivity. Qed.

(** The segments depend on the world through the path table only. *)
Lemma invoke_dispatch_paths (self : ref) (c : call) (w w' : World) :
  paths w' = paths w ->
  exists res params,
    invoke remote self c w
    = CompaniesHouse.__send_request remote self "GET" res params w /\
    invoke remote self c w'
    = CompaniesHouse.__send_request remote self "GET" res params w'.
Proof.
  intros Hp.
  destruct c; eexists _, _; (split; [reflexivity |]);
    cbv [invoke]; unfold_method; rewrite Hp; reflexivity.
Qed.

End Running.

(** ** Construction *)

Lemma truthy_inv (v : option string) :
  truthy v = true -> exists s, v = Some s /\ s <> "".
Proof.
  destruct v as [[|x s]|]; simpl; intros H; try discriminate.
  exists (String x s). split; [reflexivity | discriminate].
Qed.

Lemma falsy_inv (v : option string) :
  truthy v = false <-> v = None \/ v = Some "".
Proof.
  destruct v as [[|x s]|]; simpl; split; intros H; auto;
    try discriminate; destruct H; discriminate.
Qed.

Section Construction.

Lemma assign_last (f : instance -> instance) (o : instance) (w : World) :
  assign (length (objects w)) f (with_object o w)
  = (Ok tt, with_object (f o) w).
Proof.
  unfold assign, with_object. cbn [objects environ paths wire].
  rewrite list_lookup_middle by reflexivity.
  rewrite insert_app_r_alt by lia.
  now rewrite Nat.sub_diag.
Qed.

Lemma deref_last (o : instance) (w : World) :
  deref (length (objects w)) (with_object o w) = (Ok o, with_object o w).
Proof.
  unfold deref, with_object. cbn [objects].
  now rewrite list_lookup_middle by reflexivity.
Qed.

(** [CompaniesHouse()] in full: which guard fires, and the object left in
    the store in each case. *)
Lemma new_run (w : World) :
  let h := environ w "COMPANIES_HOUSE_HOST" in
  let k := environ w "COMPANIES_HOUSE_APIKEY" in
  CompaniesHouse.new w =
    if negb (truthy h) then
      (Raise (ValueError "KVK_HOST is not set"), with_object (filled h k []) w)
    else if negb (truthy k) then
      (Raise (ValueError "KVK_APIKEY is not set"), with_object (filled h k []) w)
    else
      (Ok (length (objects w)),
       with_object (filled h k [("Authorization", k)]) w).
Proof.
  intros h k.
  unfold CompaniesHouse.new, CompaniesHouse.__init__, mbind, M_bind.
  change (allocate w) with (Ok (length (objects w)), with_object blank w).
  unfold os_getenv, set_host, set_api_key, set_headers.
  change (environ (with_object blank w)) with (environ w).
  rewrite assign_last.
  match goal with
  | |- context [environ (with_object ?o w)] =>
      change (environ (with_object o w)) with (environ w)
  end.
  rewrite assign_last, deref_last. cbn [host api_key headers blank].
  fold h k. unfold filled.
  destruct (truthy h); cbn [negb]; [| reflexivity].
  destruct (truthy k); cbn [negb]; [| reflexivity].
  rewrite assign_last. reflexivity.
Qed.

(** A construction that returns: both variables were set and not empty, and
    the new object sits at the end of the store. *)
Lemma new_returns (w w1 : World) (self : ref) :
  CompaniesHouse.new w = (Ok self, w1) ->
  exists h k,
    environ w "COMPANIES_HOUSE_HOST" = Some h /\ h <> "" /\
    environ w "COMPANIES_HOUSE_APIKEY" = Some k /\ k <> "" /\
    self = length (objects w) /\
    w1 = with_object (filled (Some h) (Some k) [("Authorization", Some k)]) w.
Proof.
  rewrite new_run. cbv zeta.
  destruct (truthy (environ w "COMPANIES_HOUSE_HOST")) eqn:Hh;
    cbn [negb]; [| discriminate].
  destruct (truthy (environ w "COMPANIES_HOUSE_APIKEY")) eqn:Hk;
    cbn [negb]; [| discriminate].
  apply truthy_inv in Hh as (h & Hh & Hh').
  apply truthy_inv in Hk as (k & Hk & Hk').
  intros [= <- <-]. exists h, k. rewrite Hh, Hk. auto 10.
Qed.

End Construction.

(** ** What a call leaves behind *)

Section Frame.

Variable remote : list Sent -> Sent -> string + Response.

(** The three ways [__send_request] can end. *)
Lemma send_request_cases (w : World) (self : ref) (request_type : string)
    (res : list (option string)) (params : kwargs) :
  let m := CompaniesHouse.__send_request remote self request_type res params in
  (exists e, m w = (Raise e, w)) \/
  (exists o h,
     objects w !! self = Some o /\ host o = Some h /\
     let s := {| sent_method := request_type;
                 sent_url := h +:+ String.concat "" (CompaniesHouse.slashed res);
                 sent_headers := headers o;
                 sent_params := params |} in
     m w = (answer (remote (wire w) s), sending s w)).
Proof.
  intros m. destruct (objects w !! self) as [o|] eqn:Ho.
  - destruct (host o) as [h|] eqn:Hh.
    + right. exists o, h. repeat split; try assumption.
      now apply send_request_run.
    + left. eexists. now apply (send_request_no_host remote w self o).
  - left. eexists. now apply send_request_no_object.
Qed.

Lemma send_request_frame (w : World) (self : ref) (request_type : string)
    (res : list (option string)) (params : kwargs) :
  let w' := snd (CompaniesHouse.__send_request remote self request_type
                   res params w) in
  environ w' = environ w /\ paths w' = paths w /\ objects w' = objects w.
Proof.
  destruct (send_request_cases w self request_type res params)
    as [[e ->] | (o & h & _ & _ & ->)]; now cbn.
Qed.

Lemma invoke_frame (w : World) (self : ref) (c : call) :
  let w' := snd (invoke remote self c w) in
  environ w' = environ w /\ paths w' = paths w /\ objects w' = objects w.
Proof.
  destruct (invoke_dispatch remote self c w) as (res & params & ->).
  apply send_request_frame.
Qed.

Lemma run_calls_frame (cs : list (ref * call)) (w : World) :
  let w' := run_calls remote cs w in
  environ w' = environ w /\ paths w' = paths w /\ objects w' = objects w.
Proof.
  revert w. induction cs as [|[self c] cs IH]; intros w; [now cbn |].
  cbn [run_calls fold_left fst snd].
  destruct (IH (snd (invoke remote self c w))) as (He & Hp & Ho).
  destruct (invoke_frame w self c) as (He' & Hp' & Ho').
  unfold run_calls in *. cbn zeta in *.
  now rewrite He, Hp, Ho.
Qed.

(** The request a public method sends on an object that has a host. *)
Lemma invoke_run (w : World) (self : ref) (o : instance) (h : string)
    (c : call) :
  objects w !! self = Some o ->
  host o = Some h ->
  exists res params,
    let s := {| sent_method := "GET";
                sent_url := h +:+ String.concat "" (CompaniesHouse.slashed res);
                sent_headers := headers o;
                sent_params := params |} in
    invoke remote self c w = (answer (remote (wire w) s), sending s w).
Proof.
  intros Ho Hh.
  destruct (invoke_dispatch remote self c w) as (res & params & ->).
  exists res, params. now apply send_request_run.
Qed.

End Frame.

Section Paths.

Variable remote : list Sent -> Sent -> string + Response.

(** [__send_request] does not read the path table. *)
Lemma send_request_with_paths (P : APIpaths.t) (w : World) (self : ref)
    (request_type : string) (res : list (option string)) (params : kwargs) :
  let m := CompaniesHouse.__send_request remote self request_type res params in
  fst (m (with_paths P w)) = fst (m w) /\
  wire (snd (m (with_paths P w))) = wire (snd (m w)).
Proof.
  intros m. unfold m.
  destruct (objects w !! self) as [o|] eqn:Hobj.
  - destruct (host o) as [h|] eqn:Hh.
    + rewrite (send_request_run remote w self o h) by assumption.
      rewrite (send_request_run remote (with_paths P w) self o h)
        by assumption.
      now cbn.
    + rewrite (send_request_no_host remote w self o) by assumption.
      rewrite (send_request_no_host remote (with_paths P w) self o)
        by assumption.
      now cbn.
  - rewrite (send_request_no_object remote w self) by assumption.
    rewrite (send_request_no_object remote (with_paths P w) self)
      by assumption.
    now cbn.
Qed.

End Paths.

(** ** The query string *)

Lemma query_string_set (params : kwargs) (key : string) (v : pyval) :
  ((key, v) ∈ Requests.query_string params) <-> ((key, Some v) ∈ params).
Proof.
  unfold Requests.query_string. rewrite list_elem_of_omap. split.
  - intros ([k [u|]] & Hin & Heq); cbn in Heq; [| discriminate].
    now injection Heq as -> ->.
  - intros Hin. exists (key, Some v). now split.
Qed.

Lemma query_string_unset (params : kwargs) (key : string) :
  NoDup params.*1 ->
  (key, None) ∈ params ->
  key ∉ (Requests.query_string params).*1.
Proof.
  intros Hnd Hnone Hin.
  apply list_elem_of_fmap in Hin as ([k v] & -> & Hin). cbn [fst] in Hnone.
  apply query_string_set in Hin.
  induction params as [|[k' u] params IH]; [now apply elem_of_nil in Hin |].
  cbn in Hnd. apply NoDup_cons in Hnd as [Hk' Hnd].
  apply elem_of_cons in Hin as [Hin | Hin];
    apply elem_of_cons in Hnone as [Hnone | Hnone].
  - congruence.
  - injection Hin as <- _. apply Hk'.
    apply list_elem_of_fmap. now exists (k, None).
  - injection Hnone as <- _. apply Hk'.
    apply list_elem_of_fmap. now exists (k, Some v).
  - now apply IH.
Qed.

(** The keys of the dictionary a public method builds are distinct. *)
Ltac distinct_keys :=
  cbn [fmap list_fmap fst];
  apply (bool_decide_unpack _); vm_compute; exact I.

(** ** The client at work *)

Example company_profile_request :
  issued (invoke example_remote 0 (call_get_company_profile "11799251"))
    example_client_world
  = [{| sent_method := "GET";
        sent_url :=
          "https://api.company-information.service.gov.uk/company/11799251";
        sent_headers := [("Authorization", Some "0123456789abcdef")];
        sent_params := [] |}].
Proof. reflexivity. Qed.

Example company_charge_request :
  sent_url <$> issued (invoke example_remote 0
                         (call_get_company_charge "11799251" "abc"))
                 example_client_world
  = ["https://api.company-information.service.gov.uk/company/11799251/11799251/charges/abc"].
Proof. reflexivity. Qed.

Example officers_query_string :
  (fun s => Requests.query_string (sent_params s))
    <$> issued (invoke example_remote 0
                  (call_get_officers "11799251" (Some 10%Z) None None None
                     (Some "surname")))
          example_client_world
  = [[("items_per_page", PyInt 10); ("order_by", PyStr "surname")]].
Proof. reflexivity. Qed.

Example not_found_is_returned :
  fst (invoke example_remote 0 (call_get_company_profile "00000000")
         example_client_world)
  = Ok {| status_code := 404%Z; response_headers := []; content := "{}" |}.
Proof. reflexivity. Qed.

Example no_host_no_client :
  fst (CompaniesHouse.new empty_world)
  = Raise (ValueError "KVK_HOST is not set").
Proof. reflexivity. Qed.

Example none_segments_are_skipped :
  String.concat ""
    (CompaniesHouse.slashed [Some "company"; None; Some "11799251"; None])
  = "/company/11799251".
Proof. reflexivity. Qed.

(** ** The dispatch routine *)

(** C1.  [__send_request], called on an object whose host is [h] with an
    ordered list of path segments some of which may be [None], calls
    [requests.request] once with the URL [h] followed by ["/" + segment] for
    each segment that is not [None], in the given order; a [None] segment
    contributes nothing to the URL, so a list with [None] entries gives the
    URL of the list without them. *)
Theorem send_request_url (remote : list Sent -> Sent -> string + Response)
    (w : World) (self : ref) (o : instance) (h : string)
    (request_type : string) (res : list (option string)) (params : kwargs) :
  objects w !! self = Some o ->
  host o = Some h ->
  exists s,
    wire (snd (CompaniesHouse.__send_request remote self request_type
                 res params w)) = wire w ++ [s] /\
    sent_url s = spec_url h res /\
    sent_url s = spec_url h (Some <$> omap id res).
Proof.
  intros Ho Hh. eexists. split.
  - now rewrite (send_request_run remote w self o h).
  - cbn [sent_url]. split; [now rewrite spec_url_join |].
    now rewrite !spec_url_join, slashed_present.
Qed.

Lemma send_request_url_witness :
  exists s,
    wire (snd (CompaniesHouse.__send_request example_remote 0 "GET"
                 [Some "company"; None; Some "11799251"; None] []
                 example_client_world))
      = wire example_client_world ++ [s] /\
    sent_url s
      = spec_url example_host [Some "company"; None; Some "11799251"; None] /\
    sent_url s
      = spec_url example_host [Some "company"; Some "11799251"].
Proof.
  apply (send_request_url example_remote example_client_world 0
           (filled (Some example_host) (Some example_key)
                   [("Authorization", Some example_key)])
           example_host "GET" [Some "company"; None; Some "11799251"; None] []);
    reflexivity.
Defined.

(** ** Construction *)

(** C4.  When the host variable or the key variable is absent from the
    environment or holds the empty string, [CompaniesHouse()] raises
    [ValueError]: the caller gets no reference to a client, and no call of
    [requests.request] has been made. *)
Theorem construction_fails_without_configuration (w : World) :
  environ w "COMPANIES_HOUSE_HOST" = None \/
  environ w "COMPANIES_HOUSE_HOST" = Some "" \/
  environ w "COMPANIES_HOUSE_APIKEY" = None \/
  environ w "COMPANIES_HOUSE_APIKEY" = Some "" ->
  (exists msg, fst (CompaniesHouse.new w) = Raise (ValueError msg)) /\
  (forall self, fst (CompaniesHouse.new w) <> Ok self) /\
  wire (snd (CompaniesHouse.new w)) = wire w.
Proof.
  intros H. rewrite new_run. cbv zeta.
  assert (truthy (environ w "COMPANIES_HOUSE_HOST") = false \/
          truthy (environ w "COMPANIES_HOUSE_APIKEY") = false) as Hf.
  { rewrite !falsy_inv. tauto. }
  destruct (truthy (environ w "COMPANIES_HOUSE_HOST")); cbn [negb].
  - destruct (truthy (environ w "COMPANIES_HOUSE_APIKEY")); cbn [negb].
    + destruct Hf; discriminate.
    + repeat split; [eexists; reflexivity | discriminate].
  - repeat split; [eexists; reflexivity | discriminate].
Qed.

Lemma construction_fails_without_configuration_witness :
  (exists msg, fst (CompaniesHouse.new empty_world) = Raise (ValueError msg)) /\
  (forall self, fst (CompaniesHouse.new empty_world) <> Ok self) /\
  wire (snd (CompaniesHouse.new empty_world)) = wire empty_world.
Proof.
  apply (construction_fails_without_configuration empty_world).
  left. reflexivity.
Defined.

(** ** Calls never write *)

(** C8.  Whatever the sequence of public method calls, on whichever
    objects, the store of client objects (the host, the key and the headers
    of each), the path table and the environment are afterwards what they
    were before; and the request a call sends after the sequence is the
    request it would have sent before it. *)
Theorem calls_mutate_nothing (remote : list Sent -> Sent -> string + Response)
    (cs : list (ref * call)) (w : World) :
  let w' := run_calls remote cs w in
  objects w' = objects w /\
  paths w' = paths w /\
  environ w' = environ w /\
  forall self c,
    issued (invoke remote self c) w' = issued (invoke remote self c) w.
Proof.
  intros w'. destruct (run_calls_frame remote cs w) as (He & Hp & Ho).
  fold w' in He, Hp, Ho. repeat split; try assumption.
  intros self c. unfold issued.
  destruct (invoke_dispatch_paths remote self c w w' Hp)
    as (res & params & -> & ->).
  assert (objects w' !! self = objects w !! self) as Hsame by now rewrite Ho.
  destruct (objects w !! self) as [o|] eqn:Hobj.
  - destruct (host o) as [h|] eqn:Hh.
    + rewrite (send_request_run remote w self o h) by assumption.
      rewrite (send_request_run remote w' self o h) by assumption.
      cbn [snd sending wire]. now rewrite !drop_app_length.
    + rewrite (send_request_no_host remote w self o) by assumption.
      rewrite (send_request_no_host remote w' self o) by assumption.
      cbn [snd]. now rewrite !drop_all.
  - rewrite (send_request_no_object remote w self) by assumption.
    rewrite (send_request_no_object remote w' self) by assumption.
    cbn [snd]. now rewrite !drop_all.
Qed.

(** ** A constructed client, at any later time *)

Section Constructed.

Variable remote : list Sent -> Sent -> string + Response.

(** [self = CompaniesHouse()] returned in the world [w0] and left [w1]; the
    calls [cs] were made since. *)
Variables (w0 w1 : World) (self : ref) (cs : list (ref * call)).
Hypothesis constructed : CompaniesHouse.new w0 = (Ok self, w1).

Lemma client_after_calls :
  exists h k,
    environ w0 "COMPANIES_HOUSE_HOST" = Some h /\ h <> "" /\
    environ w0 "COMPANIES_HOUSE_APIKEY" = Some k /\ k <> "" /\
    objects (run_calls remote cs w1) !! self
      = Some (filled (Some h) (Some k) [("Authorization", Some k)]) /\
    paths (run_calls remote cs w1) = paths w0.
Proof.
  destruct (new_returns w0 w1 self constructed)
    as (h & k & Hh & Hh' & Hk & Hk' & -> & ->).
  destruct (run_calls_frame remote cs
              (with_object (filled (Some h) (Some k)
                                   [("Authorization", Some k)]) w0))
    as (_ & Hp & Ho).
  exists h, k. repeat split; try assumption.
  rewrite Ho. cbn [objects with_object].
  now apply list_lookup_middle.
Qed.

(** C5.  Whatever the transport answers to the request of a public method
    is what the method hands to its caller: a response comes back as it is,
    whatever its status code, and nothing is raised then. *)
Theorem responses_returned_unchanged (c : call) :
  let w := run_calls remote cs w1 in
  exists s,
    wire (snd (invoke remote self c w)) = wire w ++ [s] /\
    fst (invoke remote self c w) = answer (remote (wire w) s) /\
    forall response : Response,
      remote (wire w) s = inr response ->
      fst (invoke remote self c w) = Ok response.
Proof.
  intros w. destruct client_after_calls as (h & k & _ & _ & _ & _ & Ho & _).
  destruct (invoke_run remote w self _ h c Ho eq_refl)
    as (res & params & Hrun).
  cbv zeta in Hrun. eexists. rewrite Hrun. cbn [fst snd sending wire].
  repeat split. intros response ->. reflexivity.
Qed.

(** C6.  A public method call makes exactly one call of [requests.request];
    its method is ["GET"] and its headers are the one entry
    [Authorization], whose value is the key read from the environment at
    construction. *)
Theorem one_get_request_with_the_key (c : call) :
  let w := run_calls remote cs w1 in
  exists s,
    wire (snd (invoke remote self c w)) = wire w ++ [s] /\
    sent_method s = "GET" /\
    sent_headers s
      = [("Authorization", environ w0 "COMPANIES_HOUSE_APIKEY")] /\
    exists key, environ w0 "COMPANIES_HOUSE_APIKEY" = Some key /\ key <> "".
Proof.
  intros w. destruct client_after_calls as (h & k & _ & _ & Hk & Hk' & Ho & _).
  destruct (invoke_run remote w self _ h c Ho eq_refl)
    as (res & params & Hrun).
  cbv zeta in Hrun. eexists. rewrite Hrun. cbn [fst snd sending wire].
  repeat split.
  - cbn. now rewrite Hk.
  - now exists k.
Qed.

(** C9.  On a client whose construction returned, the host is a string that
    is not empty, at any later time; so the guard of [__send_request] does
    not fire: no call of [__send_request] and no public method call ends
    with [ValueError('HOST is not set')]. *)
Theorem host_guard_unreachable :
  let w := run_calls remote cs w1 in
  (exists o h, objects w !! self = Some o /\ host o = Some h /\ h <> "") /\
  (forall request_type res params,
     fst (CompaniesHouse.__send_request remote self request_type res params w)
     <> Raise (ValueError "HOST is not set")) /\
  (forall c,
     fst (invoke remote self c w) <> Raise (ValueError "HOST is not set")).
Proof.
  intros w. destruct client_after_calls as (h & k & _ & Hh & _ & _ & Ho & _).
  fold w in Ho.
  assert (forall request_type res params,
     fst (CompaniesHouse.__send_request remote self request_type res params w)
     <> Raise (ValueError "HOST is not set")) as Hsend.
  { intros request_type res params.
    rewrite (send_request_run remote w self _ h) by (exact Ho || reflexivity).
    cbn [fst]. destruct (remote _ _); discriminate. }
  repeat split.
  - eexists _, h. split; [exact Ho | split; [reflexivity | exact Hh]].
  - exact Hsend.
  - intros c. destruct (invoke_dispatch remote self c w) as (res & params & ->).
    apply Hsend.
Qed.

(** C3.  In the request of any public method, a parameter whose value is
    [None] in the dictionary handed to [requests.request] has no field in
    the query string, and the fields of the query string are the entries
    whose value is set, with that value.  [search_companies("Swishfund")],
    with no paging parameters, has the query string [q=Swishfund]: the keys
    [items_per_page] and [start_index] are not in it. *)
Theorem unset_parameters_are_omitted (c : call) :
  let w := run_calls remote cs w1 in
  (exists s,
     wire (snd (invoke remote self c w)) = wire w ++ [s] /\
     (forall key, (key, None) ∈ sent_params s ->
        key ∉ (Requests.query_string (sent_params s)).*1) /\
     (forall key v,
        ((key, v) ∈ Requests.query_string (sent_params s)) <->
        ((key, Some v) ∈ sent_params s))) /\
  (exists s,
     wire (snd (CompaniesHouse.search_companies remote self "Swishfund"
                  None None None w)) = wire w ++ [s] /\
     Requests.query_string (sent_params s) = [("q", PyStr "Swishfund")] /\
     ("items_per_page" ∉ (Requests.query_string (sent_params s)).*1) /\
     ("start_index" ∉ (Requests.query_string (sent_params s)).*1)).
Proof.
  intros w. destruct client_after_calls as (h & k & _ & _ & _ & _ & Ho & _).
  fold w in Ho. split.
  - destruct c;
      (eexists; split;
       [ cbv [invoke]; unfold_method;
         rewrite (send_request_run remote w self _ h _ _ _ Ho eq_refl);
         reflexivity
       | cbn [sent_params]; split;
         [ intros key; apply query_string_unset; distinct_keys
         | intros key v; apply query_string_set ] ]).
  - eexists. split.
    + unfold_method.
      rewrite (send_request_run remote w self _ h _ _ _ Ho eq_refl).
      reflexivity.
    + cbn. repeat split; intros Hin%list_elem_of_singleton; discriminate.
Qed.

(** C7, as the code has it.  [advanced_company_search] called with
    [company_name_includes='Swishfund'] and nothing else sends a request
    whose query string is the one field [company_name_includes=Swishfund];
    the dictionary has twelve other keys (ten other filters, [size] and
    [start_index]) and none of them is in the query string. *)
Theorem advanced_search_by_name_only :
  let w := run_calls remote cs w1 in
  exists s others,
    wire (snd (CompaniesHouse.advanced_company_search remote self
                 (Some "Swishfund") None None None None None None None None
                 None None None None w)) = wire w ++ [s] /\
    Requests.query_string (sent_params s)
      = [("company_name_includes", PyStr "Swishfund")] /\
    (sent_params s).*1 = "company_name_includes" :: others /\
    others = ["company_name_excludes"; "company_status"; "company_subtype";
              "company_type"; "dissolved_from"; "dissolved_to";
              "incorporated_from"; "incorporated_to"; "location";
              "sic_codes"; "size"; "start_index"] /\
    length others = 12 /\
    Forall (fun key => key ∉ (Requests.query_string (sent_params s)).*1)
      others.
Proof.
  intros w. destruct client_after_calls as (h & k & _ & _ & _ & _ & Ho & _).
  fold w in Ho. eexists _, _. split.
  - unfold_method.
    rewrite (send_request_run remote w self _ h _ _ _ Ho eq_refl).
    reflexivity.
  - cbn. repeat split.
    repeat (apply Forall_cons; split;
            [ intros Hin%list_elem_of_singleton; discriminate |]).
    apply Forall_nil_2.
Qed.

Hypothesis declared_paths : paths w0 = APIpaths.declared.

(** C2.  [get_company_charge] sends the URL
    [host/company/<company_number>/<company_number>/charges/<charge_id>]:
    the company number is there twice, so the URL is never the one of the
    documented shape [company/<number>/charges/<id>]. *)
Theorem get_company_charge_repeats_company_number
    (company_number charge_id : string) :
  let w := run_calls remote cs w1 in
  exists h s,
    environ w0 "COMPANIES_HOUSE_HOST" = Some h /\
    wire (snd (CompaniesHouse.get_company_charge remote self company_number
                 charge_id w)) = wire w ++ [s] /\
    sent_url s = h +:+ "/company/" +:+ company_number +:+ "/" +:+
                 company_number +:+ "/charges/" +:+ charge_id /\
    sent_url s <> h +:+ "/company/" +:+ company_number +:+ "/charges/" +:+
                  charge_id.
Proof.
  intros w. destruct client_after_calls as (h & k & Hh & _ & _ & _ & Ho & Hp).
  fold w in Ho, Hp. exists h. eexists. split; [exact Hh |]. split.
  - unfold_method.
    rewrite (send_request_run remote w self _ h _ _ _ Ho eq_refl).
    reflexivity.
  - cbn [sent_url]. rewrite Hp, declared_paths, <- spec_url_join.
    cbn [spec_url APIpaths.company APIpaths.charges APIpaths.declared].
    rewrite !string_app_assoc. split; [reflexivity |].
    intros E. apply (f_equal String.length) in E.
    rewrite !string_length_app in E. cbn [String.length] in E. lia.
Qed.

(** C10.  [get_the_super_secure_person_with_significant_control] sends the
    URL [host/company/<company_number>/persons-with-significant-control/<id>],
    in which no [super-secure] segment stands; and no public method reads
    the [super_secure] attribute of [APIpaths]: whatever value is assigned to
    it, every call returns the same and sends the same. *)
Theorem super_secure_segment_is_never_used
    (company_number super_secure_id : string) :
  let w := run_calls remote cs w1 in
  (exists h s,
     environ w0 "COMPANIES_HOUSE_HOST" = Some h /\
     wire (snd (CompaniesHouse.get_the_super_secure_person_with_significant_control
                  remote self company_number super_secure_id w))
       = wire w ++ [s] /\
     sent_url s = h +:+ "/company/" +:+ company_number +:+
                  "/persons-with-significant-control/" +:+ super_secure_id) /\
  (forall (c : call) (client : ref) (world : World) (v : string),
     let world' :=
       with_paths (APIpaths.with_super_secure v (paths world)) world in
     fst (invoke remote client c world') = fst (invoke remote client c world) /\
     wire (snd (invoke remote client c world'))
       = wire (snd (invoke remote client c world))).
Proof.
  intros w. destruct client_after_calls as (h & k & Hh & _ & _ & _ & Ho & Hp).
  fold w in Ho, Hp. split.
  - exists h. eexists. split; [exact Hh |]. split.
    + unfold_method.
      rewrite (send_request_run remote w self _ h _ _ _ Ho eq_refl).
      reflexivity.
    + cbn [sent_url]. rewrite Hp, declared_paths, <- spec_url_join.
      cbn [spec_url APIpaths.company APIpaths.persons_with_significant_control
           APIpaths.declared].
      now rewrite !string_app_assoc.
  - intros c client world v world'.
    destruct c; cbv [invoke]; unfold_method;
      cbn [paths with_paths world']; apply send_request_with_paths.
Qed.

End Constructed.

Lemma responses_returned_unchanged_witness :
  let w := run_calls example_remote example_calls example_client_world in
  exists s,
    wire (snd (invoke example_remote 0 (call_get_company_profile "00000000") w))
      = wire w ++ [s] /\
    fst (invoke example_remote 0 (call_get_company_profile "00000000") w)
      = answer (example_remote (wire w) s) /\
    forall response : Response,
      example_remote (wire w) s = inr response ->
      fst (invoke example_remote 0 (call_get_company_profile "00000000") w)
        = Ok response.
Proof.
  apply (responses_returned_unchanged example_remote example_world
           example_client_world 0 example_calls).
  reflexivity.
Defined.

Lemma one_get_request_with_the_key_witness :
  let w := run_calls example_remote example_calls example_client_world in
  exists s,
    wire (snd (invoke example_remote 0 (call_search_all "Swishfund" None None) w))
      = wire w ++ [s] /\
    sent_method s = "GET" /\
    sent_headers s
      = [("Authorization", environ example_world "COMPANIES_HOUSE_APIKEY")] /\
    exists key,
      environ example_world "COMPANIES_HOUSE_APIKEY" = Some key /\ key <> "".
Proof.
  apply (one_get_request_with_the_key example_remote example_world
           example_client_world 0 example_calls).
  reflexivity.
Defined.

Lemma host_guard_unreachable_witness :
  let w := run_calls example_remote example_calls example_client_world in
  (exists o h, objects w !! 0 = Some o /\ host o = Some h /\ h <> "") /\
  (forall request_type res params,
     fst (CompaniesHouse.__send_request example_remote 0 request_type res
            params w)
     <> Raise (ValueError "HOST is not set")) /\
  (forall c,
     fst (invoke example_remote 0 c w) <> Raise (ValueError "HOST is not set")).
Proof.
  apply (host_guard_unreachable example_remote example_world
           example_client_world 0 example_calls).
  reflexivity.
Defined.

Lemma unset_parameters_are_omitted_witness :
  let w := run_calls example_remote example_calls example_client_world in
  let c := call_get_officers "11799251" (Some 10%Z) None None None
             (Some "surname") in
  (exists s,
     wire (snd (invoke example_remote 0 c w)) = wire w ++ [s] /\
     (forall key, (key, None) ∈ sent_params s ->
        key ∉ (Requests.query_string (sent_params s)).*1) /\
     (forall key v,
        ((key, v) ∈ Requests.query_string (sent_params s)) <->
        ((key, Some v) ∈ sent_params s))) /\
  (exists s,
     wire (snd (CompaniesHouse.search_companies example_remote 0 "Swishfund"
                  None None None w)) = wire w ++ [s] /\
     Requests.query_string (sent_params s) = [("q", PyStr "Swishfund")] /\
     ("items_per_page" ∉ (Requests.query_string (sent_params s)).*1) /\
     ("start_index" ∉ (Requests.query_string (sent_params s)).*1)).
Proof.
  apply (unset_parameters_are_omitted example_remote example_world
           example_client_world 0 example_calls).
  reflexivity.
Defined.

Lemma advanced_search_by_name_only_witness :
  let w := run_calls example_remote example_calls example_client_world in
  exists s others,
    wire (snd (CompaniesHouse.advanced_company_search example_remote 0
                 (Some "Swishfund") None None None None None None None None
                 None None None None w)) = wire w ++ [s] /\
    Requests.query_string (sent_params s)
      = [("company_name_includes", PyStr "Swishfund")] /\
    (sent_params s).*1 = "company_name_includes" :: others /\
    others = ["company_name_excludes"; "company_status"; "company_subtype";
              "company_type"; "dissolved_from"; "dissolved_to";
              "incorporated_from"; "incorporated_to"; "location";
              "sic_codes"; "size"; "start_index"] /\
    length others = 12 /\
    Forall (fun key => key ∉ (Requests.query_string (sent_params s)).*1)
      others.
Proof.
  apply (advanced_search_by_name_only example_remote example_world
           example_client_world 0 example_calls).
  reflexivity.
Defined.

(** C7, as the specification words it, fails on the count: the keys of the
    dictionary other than [company_name_includes] are not eleven. *)
Lemma advanced_search_other_keys_are_not_eleven :
  ~ exists s others,
      wire (snd (CompaniesHouse.advanced_company_search example_remote 0
                   (Some "Swishfund") None None None None None None None None
                   None None None None example_client_world))
        = wire example_client_world ++ [s] /\
      Requests.query_string (sent_params s)
        = [("company_name_includes", PyStr "Swishfund")] /\
      (sent_params s).*1 ≡ₚ "company_name_includes" :: others /\
      length others = 11 /\
      Forall (fun key => key ∉ (Requests.query_string (sent_params s)).*1)
        others.
Proof.
  intros (s & others & Hwire & _ & Hkeys & Hcount & _).
  vm_compute in Hwire. injection Hwire as <-.
  apply Permutation_length in Hkeys. cbn in Hkeys. lia.
Qed.

Lemma get_company_charge_repeats_company_number_witness :
  let w := run_calls example_remote example_calls example_client_world in
  exists h s,
    environ example_world "COMPANIES_HOUSE_HOST" = Some h /\
    wire (snd (CompaniesHouse.get_company_charge example_remote 0 "11799251"
                 "abc" w)) = wire w ++ [s] /\
    sent_url s = h +:+ "/company/" +:+ "11799251" +:+ "/" +:+
                 "11799251" +:+ "/charges/" +:+ "abc" /\
    sent_url s <> h +:+ "/company/" +:+ "11799251" +:+ "/charges/" +:+ "abc".
Proof.
  apply (get_company_charge_repeats_company_number example_remote
           example_world example_client_world 0 example_calls);
    reflexivity.
Defined.

Lemma super_secure_segment_is_never_used_witness :
  let w := run_calls example_remote example_calls example_client_world in
  (exists h s,
     environ example_world "COMPANIES_HOUSE_HOST" = Some h /\
     wire (snd (CompaniesHouse.get_the_super_secure_person_with_significant_control
                  example_remote 0 "11799251" "xyz" w))
       = wire w ++ [s] /\
     sent_url s = h +:+ "/company/" +:+ "11799251" +:+
                  "/persons-with-significant-control/" +:+ "xyz") /\
  (forall (c : call) (client : ref) (world : World) (v : string),
     let world' :=
       with_paths (APIpaths.with_super_secure v (paths world)) world in
     fst (invoke example_remote client c world')
       = fst (invoke example_remote client c world) /\
     wire (snd (invoke example_remote client c world'))
       = wire (snd (invoke example_remote client c world))).
Proof.
  apply (super_secure_segment_is_never_used example_remote example_world
           example_client_world 0 example_calls);
    reflexivity.
Defined.

(** * Further properties of the code *)

(** ** Construction, in full *)

(** X1.  When both variables are set and not empty, [CompaniesHouse()]
    returns a reference to a new object, at the end of the store, whose host
    and key are the two values and whose headers are
    [{'Authorization': key}]; nothing has been sent and nothing else has
    changed. *)
Theorem construction_succeeds_with_configuration (w : World) (h k : string) :
  environ w "COMPANIES_HOUSE_HOST" = Some h -> h <> "" ->
  environ w "COMPANIES_HOUSE_APIKEY" = Some k -> k <> "" ->
  fst (CompaniesHouse.new w) = Ok (length (objects w)) /\
  objects (snd (CompaniesHouse.new w))
    = objects w ++ [{| host := Some h; api_key := Some k;
                       headers := [("Authorization", Some k)] |}] /\
  wire (snd (CompaniesHouse.new w)) = wire w /\
  paths (snd (CompaniesHouse.new w)) = paths w /\
  environ (snd (CompaniesHouse.new w)) = environ w.
Proof.
  intros Hh Hh' Hk Hk'. rewrite new_run. cbv zeta. rewrite Hh, Hk.
  destruct h as [|x h]; [congruence |].
  destruct k as [|y k]; [congruence |].
  cbn. repeat split.
Qed.

Lemma construction_succeeds_with_configuration_witness :
  fst (CompaniesHouse.new example_world) = Ok (length (objects example_world)) /\
  objects (snd (CompaniesHouse.new example_world))
    = objects example_world
      ++ [{| host := Some example_host; api_key := Some example_key;
             headers := [("Authorization", Some example_key)] |}] /\
  wire (snd (CompaniesHouse.new example_world)) = wire example_world /\
  paths (snd (CompaniesHouse.new example_world)) = paths example_world /\
  environ (snd (CompaniesHouse.new example_world)) = environ example_world.
Proof.
  apply (construction_succeeds_with_configuration example_world
           example_host example_key);
    (reflexivity || discriminate).
Defined.

(** X2.  The host is checked before the key.  Without a host the message
    is ['KVK_HOST is not set'], whatever the key; with a host and without a
    key it is ['KVK_APIKEY is not set']; otherwise the reference of the new
    object is returned. *)
Theorem construction_outcome (w : World) :
  fst (CompaniesHouse.new w) =
    if negb (truthy (environ w "COMPANIES_HOUSE_HOST"))
    then Raise (ValueError "KVK_HOST is not set")
    else if negb (truthy (environ w "COMPANIES_HOUSE_APIKEY"))
    then Raise (ValueError "KVK_APIKEY is not set")
    else Ok (length (objects w)).
Proof.
  rewrite new_run. cbv zeta.
  destruct (truthy (environ w "COMPANIES_HOUSE_HOST")); [| reflexivity].
  destruct (truthy (environ w "COMPANIES_HOUSE_APIKEY")); reflexivity.
Qed.

(** X3.  Whether it returns or raises, [CompaniesHouse()] sends nothing and
    leaves every object that was there before as it was, as well as the path
    table and the environment. *)
Theorem construction_touches_nothing_else (w : World) :
  let w' := snd (CompaniesHouse.new w) in
  take (length (objects w)) (objects w') = objects w /\
  wire w' = wire w /\
  paths w' = paths w /\
  environ w' = environ w.
Proof.
  rewrite new_run. cbv zeta.
  destruct (truthy (environ w "COMPANIES_HOUSE_HOST"));
    [destruct (truthy (environ w "COMPANIES_HOUSE_APIKEY")) |];
    cbn [negb snd with_object objects wire paths environ];
    rewrite take_app_length; repeat split.
Qed.

(** ** The dispatch routine at its edges *)

Section Edges.

Variable remote : list Sent -> Sent -> string + Response.

Lemma issued_send_request (w : World) (self : ref) (o : instance)
    (h : string) (request_type : string) (res : list (option string))
    (params : kwargs) :
  objects w !! self = Some o ->
  host o = Some h ->
  issued (CompaniesHouse.__send_request remote self request_type res params) w
  = [{| sent_method := request_type;
        sent_url := h +:+ String.concat "" (CompaniesHouse.slashed res);
        sent_headers := headers o;
        sent_params := params |}].
Proof.
  intros Ho Hh. unfold issued.
  rewrite (send_request_run remote w self o h) by assumption.
  cbn [snd sending wire]. apply drop_app_length.
Qed.

(** X4.  On an object whose host is [None], every public method raises
    [ValueError('HOST is not set')] before anything is sent, and the world
    is left as it was. *)
Theorem missing_host_stops_every_method (w : World) (self : ref)
    (o : instance) (c : call) :
  objects w !! self = Some o ->
  host o = None ->
  invoke remote self c w = (Raise (ValueError "HOST is not set"), w).
Proof.
  intros Ho Hh.
  destruct (invoke_dispatch remote self c w) as (res & params & ->).
  now apply (send_request_no_host remote w self o).
Qed.

Lemma slashed_app (l1 l2 : list (option string)) :
  CompaniesHouse.slashed (l1 ++ l2)
  = CompaniesHouse.slashed l1 ++ CompaniesHouse.slashed l2.
Proof. apply flat_map_app. Qed.

Lemma join_empty_app (a b : list string) :
  String.concat "" (a ++ b) = String.concat "" a +:+ String.concat "" b.
Proof.
  induction a as [|x a IH]; [reflexivity |].
  change ((x :: a) ++ b) with (x :: (a ++ b)).
  now rewrite !join_empty_cons, IH, string_app_assoc.
Qed.

(** The path of the URL when a segment [r] stands between [l1] and [l2]. *)
Lemma join_slashed_middle (l1 l2 : list (option string)) (r : string) :
  String.concat "" (CompaniesHouse.slashed (l1 ++ Some r :: l2))
  = String.concat "" (CompaniesHouse.slashed l1) +:+ "/" +:+ r +:+
    String.concat "" (CompaniesHouse.slashed l2).
Proof.
  rewrite slashed_app, join_empty_app.
  change (CompaniesHouse.slashed (Some r :: l2))
    with (("/" +:+ r) :: CompaniesHouse.slashed l2).
  now rewrite join_empty_cons, !string_app_assoc.
Qed.

(** X5.  Segments go into the URL as they are: a segment that holds a
    ['/'] gives the URL of the two segments around it. *)
Theorem slash_in_segment_splits_it (w : World) (self : ref) (o : instance)
    (h : string) (request_type : string) (l1 l2 : list (option string))
    (a b : string) (params : kwargs) :
  objects w !! self = Some o ->
  host o = Some h ->
  sent_url <$> issued (CompaniesHouse.__send_request remote self request_type
                         (l1 ++ Some (a +:+ "/" +:+ b) :: l2) params) w
  = sent_url <$> issued (CompaniesHouse.__send_request remote self
                           request_type
                           (l1 ++ Some a :: Some b :: l2) params) w.
Proof.
  intros Ho Hh.
  rewrite !(issued_send_request w self o h) by assumption.
  cbn [fmap list_fmap sent_url]. do 2 f_equal.
  rewrite (join_slashed_middle l1 l2 (a +:+ "/" +:+ b)).
  rewrite (join_slashed_middle l1 (Some b :: l2) a).
  change (Some b :: l2) with ([] ++ Some b :: l2).
  rewrite (join_slashed_middle [] l2 b). cbn [CompaniesHouse.slashed flat_map].
  change (String.concat "" []) with "".
  now rewrite !string_app_assoc.
Qed.

(** X6.  Only [None] is skipped: a segment that is the empty string adds a
    bare ['/'], so the URL is one character longer than with [None] in its
    place. *)
Theorem empty_segment_is_kept (w : World) (self : ref) (o : instance)
    (h : string) (request_type : string) (l1 l2 : list (option string))
    (params : kwargs) :
  objects w !! self = Some o ->
  host o = Some h ->
  let before := String.concat "" (CompaniesHouse.slashed l1) in
  let after := String.concat "" (CompaniesHouse.slashed l2) in
  sent_url <$> issued (CompaniesHouse.__send_request remote self request_type
                         (l1 ++ Some "" :: l2) params) w
  = [h +:+ before +:+ "/" +:+ after] /\
  sent_url <$> issued (CompaniesHouse.__send_request remote self request_type
                         (l1 ++ None :: l2) params) w
  = [h +:+ before +:+ after] /\
  String.length (h +:+ before +:+ "/" +:+ after)
  = S (String.length (h +:+ before +:+ after)).
Proof.
  intros Ho Hh before after.
  rewrite !(issued_send_request w self o h) by assumption.
  cbn [fmap list_fmap sent_url]. repeat split.
  - now rewrite join_slashed_middle.
  - now rewrite slashed_app, join_empty_app.
  - rewrite !string_length_app. cbn [String.length]. lia.
Qed.

(** X7.  The key of a client goes nowhere but into its headers: two
    clients with the same host send, for the same call, requests with the
    same method, URL and parameters, each with its own headers. *)
Theorem key_is_sent_in_the_headers_only (w : World) (a b : ref)
    (oa ob : instance) (h : string) (c : call) :
  objects w !! a = Some oa -> host oa = Some h ->
  objects w !! b = Some ob -> host ob = Some h ->
  exists sa sb,
    issued (invoke remote a c) w = [sa] /\
    issued (invoke remote b c) w = [sb] /\
    sent_method sa = sent_method sb /\
    sent_url sa = sent_url sb /\
    sent_params sa = sent_params sb /\
    sent_headers sa = headers oa /\
    sent_headers sb = headers ob.
Proof.
  intros Ha Hha Hb Hhb.
  destruct c;
    (eexists _, _; split;
     [ unfold issued; cbv [invoke]; unfold_method;
       rewrite (send_request_run remote w a oa h) by assumption;
       cbn [snd sending wire]; apply drop_app_length
     | split;
       [ unfold issued; cbv [invoke]; unfold_method;
         rewrite (send_request_run remote w b ob h) by assumption;
         cbn [snd sending wire]; apply drop_app_length
       | repeat split ] ]).
Qed.

(** [__send_request] does not read the environment. *)
Lemma send_request_with_environ (e : string -> option string) (w : World)
    (self : ref) (request_type : string) (res : list (option string))
    (params : kwargs) :
  let m := CompaniesHouse.__send_request remote self request_type res params in
  m (with_environ e w) = (fst (m w), with_environ e (snd (m w))).
Proof.
  intros m. unfold m.
  destruct (objects w !! self) as [o|] eqn:Hobj.
  - destruct (host o) as [h|] eqn:Hh.
    + rewrite (send_request_run remote w self o h) by assumption.
      now rewrite (send_request_run remote (with_environ e w) self o h)
        by assumption.
    + rewrite (send_request_no_host remote w self o) by assumption.
      now rewrite (send_request_no_host remote (with_environ e w) self o)
        by assumption.
  - rewrite (send_request_no_object remote w self) by assumption.
    now rewrite (send_request_no_object remote (with_environ e w) self)
      by assumption.
Qed.

(** X8.  The environment is read at construction and never again: whatever
    is assigned to it afterwards, a call returns the same, sends the same
    and leaves the same world but for the environment itself. *)
Theorem calls_do_not_read_the_environment (e : string -> option string)
    (w : World) (self : ref) (c : call) :
  invoke remote self c (with_environ e w)
  = (fst (invoke remote self c w),
     with_environ e (snd (invoke remote self c w))).
Proof.
  destruct (invoke_dispatch_paths remote self c w (with_environ e w) eq_refl)
    as (res & params & -> & ->).
  apply send_request_with_environ.
Qed.

(** One call adds at most one request to the wire and takes none away. *)
Lemma invoke_wire (w : World) (self : ref) (c : call) :
  exists more,
    wire (snd (invoke remote self c w)) = wire w ++ more /\ length more <= 1.
Proof.
  destruct (invoke_dispatch remote self c w) as (res & params & ->).
  destruct (send_request_cases remote w self "GET" res params)
    as [[e ->] | (o & h & _ & _ & ->)]; cbn [snd sending wire].
  - exists []. split; [now rewrite app_nil_r | cbn; lia].
  - eexists. split; [reflexivity | cbn; lia].
Qed.

(** X9.  The wire only grows: after any sequence of calls, on whichever
    objects, the requests sent before are still there, in order, followed by
    at most one request for each call. *)
Theorem wire_only_grows (cs : list (ref * call)) (w : World) :
  exists more,
    wire (run_calls remote cs w) = wire w ++ more /\
    length more <= length cs.
Proof.
  revert w. induction cs as [|[self c] cs IH]; intros w.
  - exists []. split; [now rewrite app_nil_r | reflexivity].
  - change (run_calls remote ((self, c) :: cs) w)
      with (run_calls remote cs (snd (invoke remote self c w))).
    destruct (IH (snd (invoke remote self c w))) as (more2 & -> & Hlen2).
    destruct (invoke_wire w self c) as (more1 & -> & Hlen1).
    exists (more1 ++ more2). split; [now rewrite app_assoc |].
    rewrite length_app. cbn [length]. lia.
Qed.

(** X10.  No method builds a dictionary with a key twice: in every request
    sent, the keys of the parameters are distinct. *)
Theorem parameter_keys_are_distinct (w : World) (self : ref) (c : call) :
  Forall (fun s => NoDup (sent_params s).*1) (issued (invoke remote self c) w).
Proof.
  unfold issued.
  destruct (objects w !! self) as [o|] eqn:Hobj.
  - destruct (host o) as [h|] eqn:Hh.
    + destruct c; cbv [invoke]; unfold_method;
        rewrite (send_request_run remote w self o h) by assumption;
        cbn [snd sending wire]; rewrite drop_app_length;
        (apply Forall_cons; split; [| apply Forall_nil_2]);
        cbn [sent_params]; distinct_keys.
    + destruct (invoke_dispatch remote self c w) as (res & params & ->).
      rewrite (send_request_no_host remote w self o) by assumption.
      cbn [snd]. rewrite drop_all. apply Forall_nil_2.
  - destruct (invoke_dispatch remote self c w) as (res & params & ->).
    rewrite (send_request_no_object remote w self) by assumption.
    cbn [snd]. rewrite drop_all. apply Forall_nil_2.
Qed.

End Edges.

Lemma missing_host_stops_every_method_witness :
  invoke example_remote 0 (call_get_company_profile "11799251")
    unconfigured_world
  = (Raise (ValueError "HOST is not set"), unconfigured_world).
Proof.
  apply (missing_host_stops_every_method example_remote unconfigured_world 0
           (filled None None []));
    reflexivity.
Defined.

Lemma slash_in_segment_splits_it_witness :
  sent_url <$> issued (CompaniesHouse.__send_request example_remote 0 "GET"
                         ([Some "company"]
                          ++ Some ("11799251" +:+ "/" +:+ "officers") :: [])
                         []) example_client_world
  = sent_url <$> issued (CompaniesHouse.__send_request example_remote 0 "GET"
                           ([Some "company"]
                            ++ Some "11799251" :: Some "officers" :: [])
                           []) example_client_world.
Proof.
  apply (slash_in_segment_splits_it example_remote example_client_world 0
           (filled (Some example_host) (Some example_key)
                   [("Authorization", Some example_key)])
           example_host);
    reflexivity.
Defined.

Lemma empty_segment_is_kept_witness :
  let before := String.concat "" (CompaniesHouse.slashed [Some "company"]) in
  let after := String.concat "" (CompaniesHouse.slashed [Some "officers"]) in
  sent_url <$> issued (CompaniesHouse.__send_request example_remote 0 "GET"
                         ([Some "company"] ++ Some "" :: [Some "officers"])
                         []) example_client_world
  = [example_host +:+ before +:+ "/" +:+ after] /\
  sent_url <$> issued (CompaniesHouse.__send_request example_remote 0 "GET"
                         ([Some "company"] ++ None :: [Some "officers"])
                         []) example_client_world
  = [example_host +:+ before +:+ after] /\
  String.length (example_host +:+ before +:+ "/" +:+ after)
  = S (String.length (example_host +:+ before +:+ after)).
Proof.
  apply (empty_segment_is_kept example_remote example_client_world 0
           (filled (Some example_host) (Some example_key)
                   [("Authorization", Some example_key)])
           example_host);
    reflexivity.
Defined.

Lemma key_is_sent_in_the_headers_only_witness :
  exists sa sb,
    issued (invoke example_remote 0 (call_search_all "Swishfund" None None))
      two_clients_world = [sa] /\
    issued (invoke example_remote 1 (call_search_all "Swishfund" None None))
      two_clients_world = [sb] /\
    sent_method sa = sent_method sb /\
    sent_url sa = sent_url sb /\
    sent_params sa = sent_params sb /\
    sent_headers sa = [("Authorization", Some "first-key")] /\
    sent_headers sb = [("Authorization", Some "second-key")].
Proof.
  apply (key_is_sent_in_the_headers_only example_remote two_clients_world
           0 1
           (filled (Some example_host) (Some "first-key")
                   [("Authorization", Some "first-key")])
           (filled (Some example_host) (Some "second-key")
                   [("Authorization", Some "second-key")])
           example_host);
    reflexivity.
Defined.

(** ** More about a constructed client *)

Lemma run_calls_app (remote : list Sent -> Sent -> string + Response)
    (cs1 cs2 : list (ref * call)) (w : World) :
  run_calls remote (cs1 ++ cs2) w
  = run_calls remote cs2 (run_calls remote cs1 w).
Proof. apply fold_left_app. Qed.

Section ConstructedFurther.

Variable remote : list Sent -> Sent -> string + Response.

Variables (w0 w1 : World) (self : ref) (cs : list (ref * call)).
Hypothesis constructed : CompaniesHouse.new w0 = (Ok self, w1).

(** X11.  A failure of the transport is not caught: when the transport
    fails on the request of a public method, the method raises that failure;
    the request has been sent and the world is otherwise as it was. *)
Theorem transport_failures_propagate (c : call) :
  let w := run_calls remote cs w1 in
  exists s,
    issued (invoke remote self c) w = [s] /\
    forall detail,
      remote (wire w) s = inl detail ->
      invoke remote self c w = (Raise (RequestException detail), sending s w).
Proof.
  intros w.
  destruct (client_after_calls remote w0 w1 self cs constructed)
    as (h & k & _ & _ & _ & _ & Ho & _).
  destruct (invoke_run remote w self _ h c Ho eq_refl)
    as (res & params & Hrun).
  cbv zeta in Hrun. eexists. unfold issued. rewrite Hrun.
  cbn [snd sending wire]. split; [apply drop_app_length |].
  now intros detail ->.
Qed.

(** X12.  Any number of calls on a constructed client send one request
    each, in the order of the calls, every one of them a GET carrying the
    key read at construction. *)
Theorem every_call_sends_one_get (calls : list call) :
  let w := run_calls remote cs w1 in
  exists sent,
    wire (run_calls remote (pair self <$> calls) w) = wire w ++ sent /\
    length sent = length calls /\
    Forall (fun s =>
              sent_method s = "GET" /\
              sent_headers s
                = [("Authorization", environ w0 "COMPANIES_HOUSE_APIKEY")])
      sent.
Proof.
  intros w. induction calls as [|c calls IH] using rev_ind.
  - exists []. cbn. rewrite app_nil_r. repeat split. apply Forall_nil_2.
  - destruct IH as (sent & Hwire & Hlen & Hall).
    destruct (client_after_calls remote w0 w1 self
                (cs ++ (pair self <$> calls)) constructed)
      as (h & k & _ & _ & Hk & _ & Ho & _).
    rewrite run_calls_app in Ho. fold w in Ho.
    rewrite fmap_app, run_calls_app.
    change (run_calls remote (pair self <$> [c])
              (run_calls remote (pair self <$> calls) w))
      with (snd (invoke remote self c
                   (run_calls remote (pair self <$> calls) w))).
    destruct (invoke_run remote _ self _ h c Ho eq_refl)
      as (res & params & Hrun).
    cbv zeta in Hrun. rewrite Hrun. cbn [snd sending wire].
    rewrite Hwire, <- app_assoc. eexists. split; [reflexivity |]. split.
    + rewrite !length_app. cbn [length]. lia.
    + apply Forall_app. split; [exact Hall |].
      apply Forall_cons. split; [| apply Forall_nil_2].
      cbn [sent_method sent_headers headers filled]. now rewrite Hk.
Qed.

(** X13.  Every URL a constructed client sends is its host followed by
    ['/'] and a path, whatever the method, its arguments and the values of
    the path table. *)
Theorem every_url_starts_with_the_host (c : call) :
  let w := run_calls remote cs w1 in
  exists h s path,
    environ w0 "COMPANIES_HOUSE_HOST" = Some h /\
    issued (invoke remote self c) w = [s] /\
    sent_url s = h +:+ "/" +:+ path.
Proof.
  intros w.
  destruct (client_after_calls remote w0 w1 self cs constructed)
    as (h & k & Hh & _ & _ & _ & Ho & _).
  fold w in Ho. exists h.
  destruct c;
    (eexists _, _; split; [exact Hh |]; split;
     [ unfold issued; cbv [invoke]; unfold_method;
       rewrite (send_request_run remote w self _ h _ _ _ Ho eq_refl);
       cbn [snd sending wire]; apply drop_app_length
     | cbn [sent_url CompaniesHouse.slashed flat_map app];
       rewrite join_empty_cons, string_app_assoc; reflexivity ]).
Qed.

(** X14.  Each test function of the test module sends one GET request; it
    passes exactly when the remote side answers that request with status
    200, fails on any other status, and ends in error when the transport
    fails. *)
Theorem tests_pass_on_status_200 :
  let w := run_calls remote cs w1 in
  Forall (fun test : World -> Tests.verdict * World =>
            exists s,
              wire (snd (test w)) = wire w ++ [s] /\
              sent_method s = "GET" /\
              (fst (test w) = Tests.Passed <->
               exists response,
                 remote (wire w) s = inr response /\
                 status_code response = 200%Z) /\
              (forall response,
                 remote (wire w) s = inr response ->
                 status_code response <> 200%Z ->
                 fst (test w) = Tests.Failed) /\
              (forall detail,
                 remote (wire w) s = inl detail ->
                 fst (test w) = Tests.Errored (RequestException detail)))
    (Tests.collected remote self).
Proof.
  intros w.
  destruct (client_after_calls remote w0 w1 self cs constructed)
    as (h & k & _ & _ & _ & _ & Ho & _).
  fold w in Ho.
  unfold Tests.collected.
  repeat (apply Forall_cons; split; [| try apply Forall_nil_2]);
    (eexists;
     unfold Tests.test_get_companies_profile,
       Tests.test_advanced_company_search, Tests.test_get_officers,
       Tests.test_get_company_filing_history,
       Tests.test_get_company_insolvency_information,
       Tests.test_get_company_profile,
       Tests.test_get_company_uk_enstablishment,
       Tests.test_get_persons_with_significant_control,
       Tests.test_search_all, Tests.test_search_companies,
       Tests.test_search_disqualified_officers, Tests.test_search_officers,
       Tests.assert_status_code_200;
     unfold_method;
     rewrite (send_request_run remote w self _ h _ _ _ Ho eq_refl);
     match goal with
     | |- context [remote (wire w) ?s] =>
         destruct (remote (wire w) s) as [detail | response] eqn:Hanswer
     end;
     cbn [answer fst snd sending wire sent_method];
     (split; [reflexivity |]); (split; [reflexivity |]);
     [ repeat split;
       [ discriminate
       | intros (response & Hr & _); rewrite Hanswer in Hr; discriminate
       | intros response Hr; rewrite Hanswer in Hr; discriminate
       | intros d Hr; rewrite Hanswer in Hr; now injection Hr as -> ]
     | destruct (Z.eqb_spec (status_code response) 200) as [Hcode | Hcode];
       repeat split;
       [ intros _; exists response; now rewrite Hanswer
       | intros r Hr; rewrite Hanswer in Hr; injection Hr as <-; congruence
       | intros d Hr; rewrite Hanswer in Hr; discriminate
       | discriminate
       | intros (r & Hr & Hc); rewrite Hanswer in Hr; injection Hr as <-;
         congruence
       | intros d Hr; rewrite Hanswer in Hr; discriminate ] ]).
Qed.

End ConstructedFurther.

(** ** The URL of each endpoint *)

(** Computes the URL a public method sends on a constructed client, with
    the path table as declared. *)
Ltac url_of_method remote w self h Ho Hp Hd :=
  unfold issued; unfold_method;
  rewrite (send_request_run remote w self _ h _ _ _ Ho eq_refl);
  cbn [snd sending wire]; rewrite drop_app_length;
  cbn [fmap list_fmap sent_url];
  rewrite Hp, Hd, <- spec_url_join; cbn;
  rewrite ?string_app_assoc; reflexivity.

Section Endpoints.

Variable remote : list Sent -> Sent -> string + Response.

Variables (w0 w1 : World) (self : ref) (cs : list (ref * call)).
Hypothesis constructed : CompaniesHouse.new w0 = (Ok self, w1).
Hypothesis declared_paths : paths w0 = APIpaths.declared.

(** X15.  The methods on one company send to
    [host/company/<company_number>], followed by the name of the resource
    for all but the profile; the optional parameters do not reach the URL. *)
Theorem company_resource_urls (n : string) :
  let w := run_calls remote cs w1 in
  exists h,
    environ w0 "COMPANIES_HOUSE_HOST" = Some h /\
    sent_url <$> issued (CompaniesHouse.get_company_profile remote self n) w
      = [h +:+ "/company/" +:+ n] /\
    sent_url <$> issued (CompaniesHouse.get_company_registers remote self n) w
      = [h +:+ "/company/" +:+ n +:+ "/registers"] /\
    sent_url <$> issued (CompaniesHouse.get_comapany_charges remote self n) w
      = [h +:+ "/company/" +:+ n +:+ "/charges"] /\
    sent_url <$> issued (CompaniesHouse.get_company_insolvency_information
                           remote self n) w
      = [h +:+ "/company/" +:+ n +:+ "/insolvency"] /\
    sent_url <$> issued (CompaniesHouse.get_company_exemptions_information
                           remote self n) w
      = [h +:+ "/company/" +:+ n +:+ "/exemptions"] /\
    sent_url <$> issued (CompaniesHouse.get_company_uk_enstablishment
                           remote self n) w
      = [h +:+ "/company/" +:+ n +:+ "/uk-establishments"] /\
    (forall items_per_page register_type register_view start_index order_by,
       sent_url <$> issued (CompaniesHouse.get_officers remote self n
                              items_per_page register_type register_view
                              start_index order_by) w
       = [h +:+ "/company/" +:+ n +:+ "/officers"]) /\
    (forall category items_per_page start_index,
       sent_url <$> issued (CompaniesHouse.get_company_filing_history
                              remote self n category items_per_page
                              start_index) w
       = [h +:+ "/company/" +:+ n +:+ "/filing-history"]) /\
    (forall items_per_page start_index register_view,
       sent_url <$> issued (CompaniesHouse.get_persons_with_significant_control
                              remote self n items_per_page start_index
                              register_view) w
       = [h +:+ "/company/" +:+ n +:+ "/persons-with-significant-control"]) /\
    (forall items_per_page start_index register_view,
       sent_url <$> issued
                      (CompaniesHouse.get_persons_with_significant_control_statements
                         remote self n items_per_page start_index
                         register_view) w
       = [h +:+ "/company/" +:+ n +:+
          "/persons-with-significant-control-statements"]).
Proof.
  intros w.
  destruct (client_after_calls remote w0 w1 self cs constructed)
    as (h & k & Hh & _ & _ & _ & Ho & Hp).
  fold w in Ho, Hp. exists h. split; [exact Hh |].
  repeat split; intros;
    url_of_method remote w self h Ho Hp declared_paths.
Qed.

(** X16.  The lookups of one person with significant control send to
    [host/company/<n>/persons-with-significant-control/<kind>/<psc_id>] for
    the six kinds with a segment of their own; the super secure person has
    no kind segment, and the super secure beneficial owner has its kind
    segment directly under the company. *)
Theorem psc_detail_urls (n i : string) :
  let w := run_calls remote cs w1 in
  exists h,
    environ w0 "COMPANIES_HOUSE_HOST" = Some h /\
    let psc := h +:+ "/company/" +:+ n +:+
               "/persons-with-significant-control" in
    sent_url <$> issued (CompaniesHouse.get_legal_person_with_significant_control
                           remote self n i) w
      = [psc +:+ "/legal-person/" +:+ i] /\
    sent_url <$> issued (CompaniesHouse.get_legal_person_beneficial_owner
                           remote self n i) w
      = [psc +:+ "/legal-person-beneficial-owner/" +:+ i] /\
    sent_url <$> issued
                   (CompaniesHouse.get_individual_person_with_significant_control
                      remote self n i) w
      = [psc +:+ "/individual/" +:+ i] /\
    sent_url <$> issued (CompaniesHouse.get_individual_beneficial_owner
                           remote self n i) w
      = [psc +:+ "/individual-beneficial-owner/" +:+ i] /\
    sent_url <$> issued
                   (CompaniesHouse.get_corporate_entity_with_significant_control
                      remote self n i) w
      = [psc +:+ "/corporate-entity/" +:+ i] /\
    sent_url <$> issued (CompaniesHouse.get_corporate_entity_beneficial_owner
                           remote self n i) w
      = [psc +:+ "/corporate-entity-beneficial-owner/" +:+ i] /\
    sent_url <$> issued
                   (CompaniesHouse.get_the_super_secure_person_with_significant_control
                      remote self n i) w
      = [psc +:+ "/" +:+ i] /\
    sent_url <$> issued (CompaniesHouse.get_the_super_secure_beneficial_owner
                           remote self n i) w
      = [h +:+ "/company/" +:+ n +:+ "/super-secure-beneficial-owner/" +:+ i].
Proof.
  intros w.
  destruct (client_after_calls remote w0 w1 self cs constructed)
    as (h & k & Hh & _ & _ & _ & Ho & Hp).
  fold w in Ho, Hp. exists h. split; [exact Hh |]. cbv zeta.
  repeat split; url_of_method remote w self h Ho Hp declared_paths.
Qed.

(** X17.  The three methods on an officer send under [host/officers]: the
    disqualifications to
    [host/officers/disqualified-officers/corporate/<officer_id>] and
    [host/officers/disqualified-officers/natural/<officer_id>], the
    appointments to [host/officers/<officer_id>/appointments]; the
    appointment of a company officer goes to
    [host/company/<n>/officers/<officer_id>/appointments/<appointment_id>]. *)
Theorem officer_urls (n officer_id appointment_id : string) :
  let w := run_calls remote cs w1 in
  exists h,
    environ w0 "COMPANIES_HOUSE_HOST" = Some h /\
    sent_url <$> issued (CompaniesHouse.get_cooporate_officer_disqualifications
                           remote self officer_id) w
      = [h +:+ "/officers/disqualified-officers/corporate/" +:+ officer_id] /\
    sent_url <$> issued (CompaniesHouse.get_natural_officer_disqualifications
                           remote self officer_id) w
      = [h +:+ "/officers/disqualified-officers/natural/" +:+ officer_id] /\
    (forall items_per_page start_index,
       sent_url <$> issued (CompaniesHouse.get_officer_appointments remote
                              self officer_id items_per_page start_index) w
       = [h +:+ "/officers/" +:+ officer_id +:+ "/appointments"]) /\
    sent_url <$> issued (CompaniesHouse.get_company_officer_appointment
                           remote self n officer_id appointment_id) w
      = [h +:+ "/company/" +:+ n +:+ "/officers/" +:+ officer_id +:+
         "/appointments/" +:+ appointment_id].
Proof.
  intros w.
  destruct (client_after_calls remote w0 w1 self cs constructed)
    as (h & k & Hh & _ & _ & _ & Ho & Hp).
  fold w in Ho, Hp. exists h. split; [exact Hh |].
  repeat split; intros;
    url_of_method remote w self h Ho Hp declared_paths.
Qed.

(** X18.  The seven searches send to a fixed URL each: the search term and
    every other argument travel in the parameters only. *)
Theorem search_urls :
  let w := run_calls remote cs w1 in
  exists h,
    environ w0 "COMPANIES_HOUSE_HOST" = Some h /\
    (forall q i s,
       sent_url <$> issued (CompaniesHouse.search_all remote self q i s) w
       = [h +:+ "/search"]) /\
    (forall q i s r,
       sent_url <$> issued (CompaniesHouse.search_companies remote self
                              q i s r) w
       = [h +:+ "/search/companies"]) /\
    (forall q i s,
       sent_url <$> issued (CompaniesHouse.search_officers remote self
                              q i s) w
       = [h +:+ "/search/officers"]) /\
    (forall q i s,
       sent_url <$> issued (CompaniesHouse.search_disqualified_officers
                              remote self q i s) w
       = [h +:+ "/search/disqualified-officers"]) /\
    (forall q a b s,
       sent_url <$> issued (CompaniesHouse.search_companies_alphabetically
                              remote self q a b s) w
       = [h +:+ "/alphabetic-search/companies"]) /\
    (forall q t a b s i,
       sent_url <$> issued (CompaniesHouse.search_dissolved_companies
                              remote self q t a b s i) w
       = [h +:+ "/dissolved-search/companies"]) /\
    (forall a b c d e f g i j k l m n,
       sent_url <$> issued (CompaniesHouse.advanced_company_search
                              remote self a b c d e f g i j k l m n) w
       = [h +:+ "/advanced-search/companies"]).
Proof.
  intros w.
  destruct (client_after_calls remote w0 w1 self cs constructed)
    as (h & key & Hh & _ & _ & _ & Ho & Hp).
  fold w in Ho, Hp. exists h. split; [exact Hh |].
  repeat split; intros;
    url_of_method remote w self h Ho Hp declared_paths.
Qed.

(** X19.  The item lookups of the filing history and of the statements
    extend the URL of their list by ['/' + id]; and a company number with a
    ['/'] in it reaches another endpoint: [get_company_profile] called with
    [<n>/officers] sends the URL of [get_officers] called with [<n>]. *)
Theorem urls_compose (n i : string) :
  let w := run_calls remote cs w1 in
  (sent_url <$> issued (CompaniesHouse.get_company_filing_history_item
                          remote self n i) w
   = (fun s => sent_url s +:+ "/" +:+ i)
       <$> issued (CompaniesHouse.get_company_filing_history remote self n
                     None None None) w) /\
  (sent_url <$> issued
                  (CompaniesHouse.get_person_with_significant_control_statement
                     remote self n i) w
   = (fun s => sent_url s +:+ "/" +:+ i)
       <$> issued
             (CompaniesHouse.get_persons_with_significant_control_statements
                remote self n None None None) w) /\
  (sent_url <$> issued (CompaniesHouse.get_company_profile remote self
                          (n +:+ "/officers")) w
   = sent_url <$> issued (CompaniesHouse.get_officers remote self n
                            None None None None None) w).
Proof.
  intros w.
  destruct (client_after_calls remote w0 w1 self cs constructed)
    as (h & k & Hh & _ & _ & _ & Ho & Hp).
  fold w in Ho, Hp.
  repeat split;
    unfold issued; unfold_method;
    rewrite !(send_request_run remote w self _ h _ _ _ Ho eq_refl);
    cbn [snd sending wire]; rewrite !drop_app_length;
    cbn [fmap list_fmap sent_url];
    rewrite Hp, declared_paths, <- !spec_url_join; cbn;
    rewrite ?string_app_assoc; reflexivity.
Qed.

End Endpoints.

Lemma transport_failures_propagate_witness :
  let w := run_calls unreachable_remote example_calls example_client_world in
  exists s,
    issued (invoke unreachable_remote 0 (call_get_company_profile "11799251")) w = [s] /\
    forall detail,
      unreachable_remote (wire w) s = inl detail ->
      invoke unreachable_remote 0 (call_get_company_profile "11799251") w = (Raise (RequestException detail), sending s w).
Proof.
  apply (transport_failures_propagate unreachable_remote example_world example_client_world 0
           example_calls);
    reflexivity.
Defined.

Lemma every_call_sends_one_get_witness :
  let w := run_calls example_remote example_calls example_client_world in
  exists sent,
    wire (run_calls example_remote (pair 0 <$> [call_get_company_profile "11799251"; call_search_all "Swishfund" None None]) w) = wire w ++ sent /\
    length sent = length [call_get_company_profile "11799251"; call_search_all "Swishfund" None None] /\
    Forall (fun s =>
              sent_method s = "GET" /\
              sent_headers s
                = [("Authorization", environ example_world "COMPANIES_HOUSE_APIKEY")])
      sent.
Proof.
  apply (every_call_sends_one_get example_remote example_world example_client_world 0
           example_calls);
    reflexivity.
Defined.

Lemma tests_pass_on_status_200_witness :
  let w := run_calls obliging_remote example_calls example_client_world in
  Forall (fun test : World -> Tests.verdict * World =>
            exists s,
              wire (snd (test w)) = wire w ++ [s] /\
              sent_method s = "GET" /\
              (fst (test w) = Tests.Passed <->
               exists response,
                 obliging_remote (wire w) s = inr response /\
                 status_code response = 200%Z) /\
              (forall response,
                 obliging_remote (wire w) s = inr response ->
                 status_code response <> 200%Z ->
                 fst (test w) = Tests.Failed) /\
              (forall detail,
                 obliging_remote (wire w) s = inl detail ->
                 fst (test w) = Tests.Errored (RequestException detail)))
    (Tests.collected obliging_remote 0).
Proof.
  apply (tests_pass_on_status_200 obliging_remote example_world example_client_world 0
           example_calls);
    reflexivity.
Defined.

Lemma company_resource_urls_witness :
  let w := run_calls example_remote example_calls example_client_world in
  exists h,
    environ example_world "COMPANIES_HOUSE_HOST" = Some h /\
    sent_url <$> issued (CompaniesHouse.get_company_profile example_remote 0 "11799251") w
      = [h +:+ "/company/" +:+ "11799251"] /\
    sent_url <$> issued (CompaniesHouse.get_company_registers example_remote 0 "11799251") w
      = [h +:+ "/company/" +:+ "11799251" +:+ "/registers"] /\
    sent_url <$> issued (CompaniesHouse.get_comapany_charges example_remote 0 "11799251") w
      = [h +:+ "/company/" +:+ "11799251" +:+ "/charges"] /\
    sent_url <$> issued (CompaniesHouse.get_company_insolvency_information
                           example_remote 0 "11799251") w
      = [h +:+ "/company/" +:+ "11799251" +:+ "/insolvency"] /\
    sent_url <$> issued (CompaniesHouse.get_company_exemptions_information
                           example_remote 0 "11799251") w
      = [h +:+ "/company/" +:+ "11799251" +:+ "/exemptions"] /\
    sent_url <$> issued (CompaniesHouse.get_company_uk_enstablishment
                           example_remote 0 "11799251") w
      = [h +:+ "/company/" +:+ "11799251" +:+ "/uk-establishments"] /\
    (forall items_per_page register_type register_view start_index order_by,
       sent_url <$> issued (CompaniesHouse.get_officers example_remote 0 "11799251"
                              items_per_page register_type register_view
                              start_index order_by) w
       = [h +:+ "/company/" +:+ "11799251" +:+ "/officers"]) /\
    (forall category items_per_page start_index,
       sent_url <$> issued (CompaniesHouse.get_company_filing_history
                              example_remote 0 "11799251" category items_per_page
                              start_index) w
       = [h +:+ "/company/" +:+ "11799251" +:+ "/filing-history"]) /\
    (forall items_per_page start_index register_view,
       sent_url <$> issued (CompaniesHouse.get_persons_with_significant_control
                              example_remote 0 "11799251" items_per_page start_index
                              register_view) w
       = [h +:+ "/company/" +:+ "11799251" +:+ "/persons-with-significant-control"]) /\
    (forall items_per_page start_index register_view,
       sent_url <$> issued
                      (CompaniesHouse.get_persons_with_significant_control_statements
                         example_remote 0 "11799251" items_per_page start_index
                         register_view) w
       = [h +:+ "/company/" +:+ "11799251" +:+
          "/persons-with-significant-control-statements"]).
Proof.
  apply (company_resource_urls example_remote example_world example_client_world 0
           example_calls);
    reflexivity.
Defined.

Lemma psc_detail_urls_witness :
  let w := run_calls example_remote example_calls example_client_world in
  exists h,
    environ example_world "COMPANIES_HOUSE_HOST" = Some h /\
    let psc := h +:+ "/company/" +:+ "11799251" +:+
               "/persons-with-significant-control" in
    sent_url <$> issued (CompaniesHouse.get_legal_person_with_significant_control
                           example_remote 0 "11799251" "abc") w
      = [psc +:+ "/legal-person/" +:+ "abc"] /\
    sent_url <$> issued (CompaniesHouse.get_legal_person_beneficial_owner
                           example_remote 0 "11799251" "abc") w
      = [psc +:+ "/legal-person-beneficial-owner/" +:+ "abc"] /\
    sent_url <$> issued
                   (CompaniesHouse.get_individual_person_with_significant_control
                      example_remote 0 "11799251" "abc") w
      = [psc +:+ "/individual/" +:+ "abc"] /\
    sent_url <$> issued (CompaniesHouse.get_individual_beneficial_owner
                           example_remote 0 "11799251" "abc") w
      = [psc +:+ "/individual-beneficial-owner/" +:+ "abc"] /\
    sent_url <$> issued
                   (CompaniesHouse.get_corporate_entity_with_significant_control
                      example_remote 0 "11799251" "abc") w
      = [psc +:+ "/corporate-entity/" +:+ "abc"] /\
    sent_url <$> issued (CompaniesHouse.get_corporate_entity_beneficial_owner
                           example_remote 0 "11799251" "abc") w
      = [psc +:+ "/corporate-entity-beneficial-owner/" +:+ "abc"] /\
    sent_url <$> issued
                   (CompaniesHouse.get_the_super_secure_person_with_significant_control
                      example_remote 0 "11799251" "abc") w
      = [psc +:+ "/" +:+ "abc"] /\
    sent_url <$> issued (CompaniesHouse.get_the_super_secure_beneficial_owner
                           example_remote 0 "11799251" "abc") w
      = [h +:+ "/company/" +:+ "11799251" +:+ "/super-secure-beneficial-owner/" +:+ "abc"].
Proof.
  apply (psc_detail_urls example_remote example_world example_client_world 0
           example_calls);
    reflexivity.
Defined.

Lemma officer_urls_witness :
  let w := run_calls example_remote example_calls example_client_world in
  exists h,
    environ example_world "COMPANIES_HOUSE_HOST" = Some h /\
    sent_url <$> issued (CompaniesHouse.get_cooporate_officer_disqualifications
                           example_remote 0 "xyz") w
      = [h +:+ "/officers/disqualified-officers/corporate/" +:+ "xyz"] /\
    sent_url <$> issued (CompaniesHouse.get_natural_officer_disqualifications
                           example_remote 0 "xyz") w
      = [h +:+ "/officers/disqualified-officers/natural/" +:+ "xyz"] /\
    (forall items_per_page start_index,
       sent_url <$> issued (CompaniesHouse.get_officer_appointments example_remote
                              0 "xyz" items_per_page start_index) w
       = [h +:+ "/officers/" +:+ "xyz" +:+ "/appointments"]) /\
    sent_url <$> issued (CompaniesHouse.get_company_officer_appointment
                           example_remote 0 "11799251" "xyz" "abc") w
      = [h +:+ "/company/" +:+ "11799251" +:+ "/officers/" +:+ "xyz" +:+
         "/appointments/" +:+ "abc"].
Proof.
  apply (officer_urls example_remote example_world example_client_world 0
           example_calls);
    reflexivity.
Defined.

Lemma search_urls_witness :
  let w := run_calls example_remote example_calls example_client_world in
  exists h,
    environ example_world "COMPANIES_HOUSE_HOST" = Some h /\
    (forall q i s,
       sent_url <$> issued (CompaniesHouse.search_all example_remote 0 q i s) w
       = [h +:+ "/search"]) /\
    (forall q i s r,
       sent_url <$> issued (CompaniesHouse.search_companies example_remote 0
                              q i s r) w
       = [h +:+ "/search/companies"]) /\
    (forall q i s,
       sent_url <$> issued (CompaniesHouse.search_officers example_remote 0
                              q i s) w
       = [h +:+ "/search/officers"]) /\
    (forall q i s,
       sent_url <$> issued (CompaniesHouse.search_disqualified_officers
                              example_remote 0 q i s) w
       = [h +:+ "/search/disqualified-officers"]) /\
    (forall q a b s,
       sent_url <$> issued (CompaniesHouse.search_companies_alphabetically
                              example_remote 0 q a b s) w
       = [h +:+ "/alphabetic-search/companies"]) /\
    (forall q t a b s i,
       sent_url <$> issued (CompaniesHouse.search_dissolved_companies
                              example_remote 0 q t a b s i) w
       = [h +:+ "/dissolved-search/companies"]) /\
    (forall a b c d e f g i j k l m n,
       sent_url <$> issued (CompaniesHouse.advanced_company_search
                              example_remote 0 a b c d e f g i j k l m n) w
       = [h +:+ "/advanced-search/companies"]).
Proof.
  apply (search_urls example_remote example_world example_client_world 0
           example_calls);
    reflexivity.
Defined.

Lemma urls_compose_witness :
  let w := run_calls example_remote example_calls example_client_world in
  (sent_url <$> issued (CompaniesHouse.get_company_filing_history_item
                          example_remote 0 "11799251" "abc") w
   = (fun s => sent_url s +:+ "/" +:+ "abc")
       <$> issued (CompaniesHouse.get_company_filing_history example_remote 0 "11799251"
                     None None None) w) /\
  (sent_url <$> issued
                  (CompaniesHouse.get_person_with_significant_control_statement
                     example_remote 0 "11799251" "abc") w
   = (fun s => sent_url s +:+ "/" +:+ "abc")
       <$> issued
             (CompaniesHouse.get_persons_with_significant_control_statements
                example_remote 0 "11799251" None None None) w) /\
  (sent_url <$> issued (CompaniesHouse.get_company_profile example_remote 0
                          ("11799251" +:+ "/officers")) w
   = sent_url <$> issued (CompaniesHouse.get_officers example_remote 0 "11799251"
                            None None None None None) w).
Proof.
  apply (urls_compose example_remote example_world example_client_world 0
           example_calls);
    reflexivity.
Defined.

Lemma every_url_starts_with_the_host_witness :
  let w := run_calls example_remote example_calls example_client_world in
  exists h s path,
    environ example_world "COMPANIES_HOUSE_HOST" = Some h /\
    issued (invoke example_remote 0
              (call_get_natural_officer_disqualifications "xyz")) w = [s] /\
    sent_url s = h +:+ "/" +:+ path.
Proof.
  apply (every_url_starts_with_the_host example_remote example_world
           example_client_world 0 example_calls);
    reflexivity.
Defined.
